(** * autosmp: load-driven CPU hotplug (arch/arm/kernel/autosmp.c)

    A shallow embedding of the autosmp driver: the periodic work function
    [asmp_work_fn], the early-suspend pair [asmp_early_suspend] /
    [asmp_late_resume], the module parameter setter [set_asmp_enabled] and
    the sysfs [store_one] handlers, followed by the properties of the
    controller that were checked against this code. *)

From Stdlib Require Import String Ascii ZArith List Lia Bool Sorted.
Import ListNotations.
Local Open Scope Z_scope.

(** ** Machine integers *)

(** [unsigned int] is 32 bits wide on this target; arithmetic wraps. *)
Definition UINT_MAX : Z := 4294967295.
Definition u32 (z : Z) : Z := z mod 4294967296.

Definition EINVAL : Z := 22.

(** A C automatic variable: it holds an indeterminate value until the first
    assignment that reaches it. *)
Inductive auto_var (A : Type) : Type :=
| Indeterminate : auto_var A
| Assigned (v : A) : auto_var A.
Arguments Indeterminate {A}.
Arguments Assigned {A} v.

(** ** Tunables *)

Definition ASMP_STARTDELAY : Z := 20000.
Definition ASMP_WORK_DELAY : Z := 100.
Definition ASMP_MIN_CPUS : Z := 1.
Definition ASMP_CPUFREQ_UP : Z := 90.
Definition ASMP_CPUFREQ_DOWN : Z := 60.
Definition ASMP_CYCLE_UP : Z := 1.
Definition ASMP_CYCLE_DOWN : Z := 1.

Record asmp_param_struct : Type := {
  delay : Z;
  max_cpus : Z;
  min_cpus : Z;
  cpufreq_up : Z;
  cpufreq_down : Z;
  cycle_up : Z;
  cycle_down : Z
}.

(** The static initialiser of [asmp_param]; [CONFIG_NR_CPUS] comes from the
    kernel configuration. *)
Definition asmp_param_init (CONFIG_NR_CPUS : Z) : asmp_param_struct :=
  {| delay := ASMP_WORK_DELAY;
     max_cpus := CONFIG_NR_CPUS;
     min_cpus := ASMP_MIN_CPUS;
     cpufreq_up := ASMP_CPUFREQ_UP;
     cpufreq_down := ASMP_CPUFREQ_DOWN;
     cycle_up := ASMP_CYCLE_UP;
     cycle_down := ASMP_CYCLE_DOWN |}.

(** ** The kernel as seen by the driver *)

(** Calls the driver makes into the rest of the kernel, in program order. *)
Inductive kcall : Type :=
| Kcpu_up (cpu : nat)
| Kcpu_down (cpu : nat)
| Kqueue_delayed_work (delay_jif : auto_var Z)
| Kcancel_delayed_work_sync.

(** What the kernel answers.  The cpufreq getters return [unsigned int];
    each call looks up the policy of the CPU on its own and returns 0 when
    it finds none, so a rate that cannot be read is the value 0, and the
    driver never compares the answers of two calls.  [cpu_up_ok] and
    [cpu_down_ok] say whether the architecture and the hotplug notifiers let
    a transition through. *)
Record env : Type := {
  msecs_to_jiffies : Z -> Z;
  cpufreq_quick_get_max : nat -> Z;
  cpufreq_quick_get : nat -> Z;
  cpu_up_ok : nat -> bool;
  cpu_down_ok : nat -> bool
}.

(** Driver globals together with the CPU masks they act on.  A cpumask is a
    bitmap of [nr_cpu_ids] bits; [asmp_work] is [Some d] while the delayed
    work is pending with timer argument [d]. *)
Record state : Type := {
  nr_cpu_ids : nat;
  cpu_present_mask : Z;
  cpu_online_mask : Z;
  asmp_enabled : bool;
  asmp_param : asmp_param_struct;
  asmp_work : option (auto_var Z);
  klog : list kcall
}.

Definition set_online_mask (m : Z) (s : state) : state :=
  {| nr_cpu_ids := nr_cpu_ids s;
     cpu_present_mask := cpu_present_mask s;
     cpu_online_mask := m;
     asmp_enabled := asmp_enabled s;
     asmp_param := asmp_param s;
     asmp_work := asmp_work s;
     klog := klog s |}.

Definition set_enabled_flag (b : bool) (s : state) : state :=
  {| nr_cpu_ids := nr_cpu_ids s;
     cpu_present_mask := cpu_present_mask s;
     cpu_online_mask := cpu_online_mask s;
     asmp_enabled := b;
     asmp_param := asmp_param s;
     asmp_work := asmp_work s;
     klog := klog s |}.

Definition set_param (p : asmp_param_struct) (s : state) : state :=
  {| nr_cpu_ids := nr_cpu_ids s;
     cpu_present_mask := cpu_present_mask s;
     cpu_online_mask := cpu_online_mask s;
     asmp_enabled := asmp_enabled s;
     asmp_param := p;
     asmp_work := asmp_work s;
     klog := klog s |}.

Definition set_work (w : option (auto_var Z)) (s : state) : state :=
  {| nr_cpu_ids := nr_cpu_ids s;
     cpu_present_mask := cpu_present_mask s;
     cpu_online_mask := cpu_online_mask s;
     asmp_enabled := asmp_enabled s;
     asmp_param := asmp_param s;
     asmp_work := w;
     klog := klog s |}.

Definition trace (k : kcall) (s : state) : state :=
  {| nr_cpu_ids := nr_cpu_ids s;
     cpu_present_mask := cpu_present_mask s;
     cpu_online_mask := cpu_online_mask s;
     asmp_enabled := asmp_enabled s;
     asmp_param := asmp_param s;
     asmp_work := asmp_work s;
     klog := klog s ++ [k] |}.

(** *** cpumask *)

Definition cpumask_test_cpu (cpu : nat) (mask : Z) : bool :=
  Z.testbit mask (Z.of_nat cpu).

(** The CPUs visited by [for_each_cpu(cpu, mask)], in visiting order. *)
Definition for_each_cpu (nbits : nat) (mask : Z) : list nat :=
  filter (fun cpu => cpumask_test_cpu cpu mask) (seq 0 nbits).

Definition cpumask_weight (nbits : nat) (mask : Z) : Z :=
  Z.of_nat (length (for_each_cpu nbits mask)).

(** First clear bit strictly after [n], or [nbits] when there is none. *)
Definition cpumask_next_zero (n : nat) (nbits : nat) (mask : Z) : nat :=
  hd nbits (filter (fun cpu => negb (cpumask_test_cpu cpu mask))
                   (seq (S n) (nbits - S n))).

Definition cpu_online (cpu : nat) (s : state) : bool :=
  cpumask_test_cpu cpu (cpu_online_mask s).

Definition cpu_present (cpu : nat) (s : state) : bool :=
  cpumask_test_cpu cpu (cpu_present_mask s).

Definition num_online_cpus (s : state) : Z :=
  cpumask_weight (nr_cpu_ids s) (cpu_online_mask s).

Definition num_present_cpus (s : state) : Z :=
  cpumask_weight (nr_cpu_ids s) (cpu_present_mask s).

Definition for_each_online_cpu (s : state) : list nat :=
  for_each_cpu (nr_cpu_ids s) (cpu_online_mask s).

Definition for_each_present_cpu (s : state) : list nat :=
  for_each_cpu (nr_cpu_ids s) (cpu_present_mask s).

(** *** CPU hotplug

    [cpu_up] refuses a CPU that is not possible, not present or already
    online; [cpu_down] refuses a CPU that is not online.  Past these checks
    the outcome is the environment's.  The driver ignores both return
    values, so only the effect on [cpu_online_mask] is kept. *)
Definition cpu_up_succeeds (e : env) (cpu : nat) (s : state) : bool :=
  (cpu <? nr_cpu_ids s)%nat && cpu_present cpu s
  && negb (cpu_online cpu s) && cpu_up_ok e cpu.

Definition cpu_up (e : env) (cpu : nat) (s : state) : state :=
  let s := trace (Kcpu_up cpu) s in
  if cpu_up_succeeds e cpu s
  then set_online_mask (Z.setbit (cpu_online_mask s) (Z.of_nat cpu)) s
  else s.

Definition cpu_down_succeeds (e : env) (cpu : nat) (s : state) : bool :=
  (cpu <? nr_cpu_ids s)%nat && cpu_online cpu s && cpu_down_ok e cpu.

Definition cpu_down (e : env) (cpu : nat) (s : state) : state :=
  let s := trace (Kcpu_down cpu) s in
  if cpu_down_succeeds e cpu s
  then set_online_mask (Z.clearbit (cpu_online_mask s) (Z.of_nat cpu)) s
  else s.

(** *** Delayed work

    [queue_delayed_work] arms the timer only when the work is not already
    pending; [cancel_delayed_work_sync] leaves it not pending. *)
Definition queue_delayed_work (delay_jif : auto_var Z) (s : state) : state :=
  let s := trace (Kqueue_delayed_work delay_jif) s in
  match asmp_work s with
  | Some _ => s
  | None => set_work (Some delay_jif) s
  end.

Definition cancel_delayed_work_sync (s : state) : state :=
  set_work None (trace Kcancel_delayed_work_sync s).

(** ** asmp_work_fn *)

(** One iteration of the body of [for_each_online_cpu] in [asmp_work_fn];
    the accumulator is [(slow_cpu, slow_rate, fast_rate)]. *)
Definition scan_cpu (e : env) (acc : nat * Z * Z) (cpu : nat) : nat * Z * Z :=
  let '(slow_cpu, slow_rate, fast_rate) := acc in
  if negb (cpu =? 0)%nat then
    let rate := u32 (cpufreq_quick_get e cpu) in
    if rate <=? slow_rate then (cpu, rate, fast_rate)
    else if fast_rate <? rate then (slow_cpu, slow_rate, rate)
    else (slow_cpu, slow_rate, fast_rate)
  else (slow_cpu, slow_rate, fast_rate).

(** "Find current max and min cpu freq to estimate load": the values of
    [(slow_cpu, slow_rate, fast_rate)] when the decision is taken. *)
Definition asmp_sample (e : env) (s : state) : nat * Z * Z :=
  let slow_cpu := 0%nat in
  let slow_rate := UINT_MAX in
  let cpu0_rate := u32 (cpufreq_quick_get e 0%nat) in
  let fast_rate := cpu0_rate in
  let '(slow_cpu, slow_rate, fast_rate) :=
    fold_left (scan_cpu e) (for_each_online_cpu s)
              (slow_cpu, slow_rate, fast_rate) in
  let slow_rate := if cpu0_rate <? slow_rate then cpu0_rate else slow_rate in
  (slow_cpu, slow_rate, fast_rate).

Definition asmp_work_fn (e : env) (s : state) : state :=
  let cpu := 0%nat in
  let cycle := 0 in
  let delay_jif : auto_var Z := Indeterminate in
  if asmp_enabled s then
    let cycle := u32 (cycle + 1) in
    let delay0 := delay (asmp_param s) in
    let delay_jif := Assigned (msecs_to_jiffies e delay0) in
    let max_rate := u32 (cpufreq_quick_get_max e cpu) in
    let up_rate := u32 (cpufreq_up (asmp_param s) * max_rate) / 100 in
    let down_rate := u32 (cpufreq_down (asmp_param s) * max_rate) / 100 in
    let nr_cpu_online := num_online_cpus s in
    let '(slow_cpu, slow_rate, fast_rate) := asmp_sample e s in
    let s :=
      if up_rate <? slow_rate then
        if (nr_cpu_online <? max_cpus (asmp_param s))
           && (cycle_up (asmp_param s) <=? cycle)
        then cpu_up e (cpumask_next_zero 0 (nr_cpu_ids s) (cpu_online_mask s)) s
        else s
      else if negb (slow_cpu =? 0)%nat && (fast_rate <? down_rate) then
        if (min_cpus (asmp_param s) <? nr_cpu_online)
           && (cycle_down (asmp_param s) <=? cycle)
        then cpu_down e slow_cpu s
        else s
      else s in
    queue_delayed_work delay_jif s
  else
    queue_delayed_work delay_jif s.

(** The workqueue clears the pending bit of a work item before it calls
    the work function, which is what lets [asmp_work_fn] queue itself
    again; a work item that is not pending does not run. *)
Definition process_one_work (e : env) (s : state) : state :=
  match asmp_work s with
  | Some _ => asmp_work_fn e (set_work None s)
  | None => s
  end.

(** ** Early suspend *)

Definition suspend_cpu (e : env) (s : state) (cpu : nat) : state :=
  if negb (cpu =? 0)%nat && cpu_online cpu s
     && (min_cpus (asmp_param s) <? num_online_cpus s)
  then cpu_down e cpu s
  else s.

Definition asmp_early_suspend (e : env) (s : state) : state :=
  if negb (asmp_enabled s) then s
  else
    let s := fold_left (suspend_cpu e) (for_each_present_cpu s) s in
    cancel_delayed_work_sync s.

(** The loop body shared by [asmp_late_resume] and the disable branch of
    [set_asmp_enabled]. *)
Definition online_cpu (e : env) (s : state) (cpu : nat) : state :=
  if negb (cpu_online cpu s)
     && (num_online_cpus s <? max_cpus (asmp_param s))
  then cpu_up e cpu s
  else s.

Definition asmp_late_resume (e : env) (s : state) : state :=
  if negb (asmp_enabled s) then s
  else
    let s := fold_left (online_cpu e) (for_each_present_cpu s) s in
    queue_delayed_work
      (Assigned (msecs_to_jiffies e (delay (asmp_param s)))) s.

(** ** The asmp_enabled module parameter *)

(** [param_set_bool] accepts a value starting with one of [yY1nN0] and
    otherwise leaves the flag alone and returns [-EINVAL]. *)
Definition strtobool (val : string) : option bool :=
  match val with
  | String "y" _ | String "Y" _ | String "1" _ => Some true
  | String "n" _ | String "N" _ | String "0" _ => Some false
  | _ => None
  end.

Definition param_set_bool (val : string) (s : state) : state * Z :=
  match strtobool val with
  | Some b => (set_enabled_flag b s, 0)
  | None => (s, - EINVAL)
  end.

Definition set_asmp_enabled (e : env) (val : string) (s : state) : state * Z :=
  let '(s, ret) := param_set_bool val s in
  if asmp_enabled s then
    (queue_delayed_work
       (Assigned (msecs_to_jiffies e (delay (asmp_param s)))) s, ret)
  else
    let s := cancel_delayed_work_sync s in
    (fold_left (online_cpu e) (for_each_present_cpu s) s, ret).

(** ** sysfs *)

Definition isspace (c : ascii) : bool :=
  let n := nat_of_ascii c in
  ((9 <=? n) && (n <=? 13) || (n =? 32) || (n =? 160))%nat.

Definition isdigit (c : ascii) : bool :=
  let n := nat_of_ascii c in ((48 <=? n) && (n <=? 57))%nat.

Fixpoint skip_spaces (str : string) : string :=
  match str with
  | String c rest => if isspace c then skip_spaces rest else str
  | EmptyString => str
  end.

Fixpoint simple_strtoul (cp : string) (result : Z) : Z :=
  match cp with
  | String c rest =>
      if isdigit c
      then simple_strtoul rest (result * 10 + (Z.of_nat (nat_of_ascii c) - 48))
      else result
  | EmptyString => result
  end.

(** [sscanf(buf, "%u", &input)]: [Some input] when the single conversion
    succeeded (return value 1), [None] otherwise.  The conversion skips
    leading white space, needs a decimal digit, consumes the digits that
    follow and stores the value as an [unsigned int]. *)
Definition sscanf_u (buf : string) : option Z :=
  match buf with
  | EmptyString => None
  | _ =>
      match skip_spaces buf with
      | String c _ as str =>
          if isdigit c then Some (u32 (simple_strtoul str 0)) else None
      | EmptyString => None
      end
  end.

Definition set_delay (v : Z) (p : asmp_param_struct) : asmp_param_struct :=
  {| delay := v; max_cpus := max_cpus p; min_cpus := min_cpus p;
     cpufreq_up := cpufreq_up p; cpufreq_down := cpufreq_down p;
     cycle_up := cycle_up p; cycle_down := cycle_down p |}.

Definition set_max_cpus (v : Z) (p : asmp_param_struct) : asmp_param_struct :=
  {| delay := delay p; max_cpus := v; min_cpus := min_cpus p;
     cpufreq_up := cpufreq_up p; cpufreq_down := cpufreq_down p;
     cycle_up := cycle_up p; cycle_down := cycle_down p |}.

Definition set_min_cpus (v : Z) (p : asmp_param_struct) : asmp_param_struct :=
  {| delay := delay p; max_cpus := max_cpus p; min_cpus := v;
     cpufreq_up := cpufreq_up p; cpufreq_down := cpufreq_down p;
     cycle_up := cycle_up p; cycle_down := cycle_down p |}.

Definition set_cpufreq_up (v : Z) (p : asmp_param_struct) : asmp_param_struct :=
  {| delay := delay p; max_cpus := max_cpus p; min_cpus := min_cpus p;
     cpufreq_up := v; cpufreq_down := cpufreq_down p;
     cycle_up := cycle_up p; cycle_down := cycle_down p |}.

Definition set_cpufreq_down (v : Z) (p : asmp_param_struct) : asmp_param_struct :=
  {| delay := delay p; max_cpus := max_cpus p; min_cpus := min_cpus p;
     cpufreq_up := cpufreq_up p; cpufreq_down := v;
     cycle_up := cycle_up p; cycle_down := cycle_down p |}.

Definition set_cycle_up (v : Z) (p : asmp_param_struct) : asmp_param_struct :=
  {| delay := delay p; max_cpus := max_cpus p; min_cpus := min_cpus p;
     cpufreq_up := cpufreq_up p; cpufreq_down := cpufreq_down p;
     cycle_up := v; cycle_down := cycle_down p |}.

Definition set_cycle_down (v : Z) (p : asmp_param_struct) : asmp_param_struct :=
  {| delay := delay p; max_cpus := max_cpus p; min_cpus := min_cpus p;
     cpufreq_up := cpufreq_up p; cpufreq_down := cpufreq_down p;
     cycle_up := cycle_up p; cycle_down := v |}.

(** The files under [conf/]: one per field of [asmp_param]. *)
Inductive asmp_attr : Type :=
| attr_delay | attr_min_cpus | attr_max_cpus
| attr_cpufreq_up | attr_cpufreq_down
| attr_cycle_up | attr_cycle_down.

(** The [show_one(file_name, object)] macro: the number it prints. *)
Definition show_one (a : asmp_attr) (p : asmp_param_struct) : Z :=
  match a with
  | attr_delay => delay p
  | attr_min_cpus => min_cpus p
  | attr_max_cpus => max_cpus p
  | attr_cpufreq_up => cpufreq_up p
  | attr_cpufreq_down => cpufreq_down p
  | attr_cycle_up => cycle_up p
  | attr_cycle_down => cycle_down p
  end.

Definition assign_one (a : asmp_attr) (input : Z)
  : asmp_param_struct -> asmp_param_struct :=
  match a with
  | attr_delay => set_delay input
  | attr_min_cpus => set_min_cpus input
  | attr_max_cpus => set_max_cpus input
  | attr_cpufreq_up => set_cpufreq_up input
  | attr_cpufreq_down => set_cpufreq_down input
  | attr_cycle_up => set_cycle_up input
  | attr_cycle_down => set_cycle_down input
  end.

(** The [store_one(file_name, object)] macro, instantiated at attribute
    [a]; the second component is the [ssize_t] returned to sysfs. *)
Definition store_one (a : asmp_attr) (buf : string) (count : Z) (s : state)
  : state * Z :=
  match sscanf_u buf with
  | None => (s, - EINVAL)
  | Some input => (set_param (assign_one a input (asmp_param s)) s, count)
  end.

(** The characters [sprintf] emits for a number: the decimal digits from
    the least significant one up, written in front of [tail], stopping when
    the quotient reaches 0; [fuel] bounds the number of digits. *)
Fixpoint put_dec (fuel : nat) (v : Z) (tail : string) : string :=
  match fuel with
  | O => tail
  | S fuel' =>
      let tail' := String (ascii_of_nat (48 + Z.to_nat (v mod 10))) tail in
      if v / 10 =? 0 then tail' else put_dec fuel' (v / 10) tail'
  end.

(** [sprintf(buf, "%u\n", v)] for an [unsigned int] (at most ten digits):
    the text left in [buf]. *)
Definition sprintf_u_nl (v : Z) : string :=
  put_dec 10 v (String "010" EmptyString).

(** What [show_one] leaves in [buf] and the [ssize_t] it returns. *)
Definition show_one_buf (a : asmp_attr) (p : asmp_param_struct) : string * Z :=
  let buf := sprintf_u_nl (show_one a p) in
  (buf, Z.of_nat (String.length buf)).

(** ** Module init *)

(** The part of [asmp_init] that touches the controller: the first tick is
    queued [ASMP_STARTDELAY] ms after boot. *)
Definition asmp_init (e : env) (s : state) : state :=
  if asmp_enabled s then
    queue_delayed_work (Assigned (msecs_to_jiffies e ASMP_STARTDELAY)) s
  else s.

(** ** Operations of the controller *)

Inductive asmp_op : Type :=
| Work (e : env)
| EarlySuspend (e : env)
| LateResume (e : env)
| SetEnabled (e : env) (val : string)
| Store (a : asmp_attr) (buf : string) (count : Z).

Definition asmp_step (s : state) (o : asmp_op) : state :=
  match o with
  | Work e => process_one_work e s
  | EarlySuspend e => asmp_early_suspend e s
  | LateResume e => asmp_late_resume e s
  | SetEnabled e val => fst (set_asmp_enabled e val s)
  | Store a buf count => fst (store_one a buf count s)
  end.

Definition asmp_run (ops : list asmp_op) (s : state) : state :=
  fold_left asmp_step ops s.

(** ** Test fixtures *)

(** A machine with [n] CPUs, all present, those in [online] running, the
    driver enabled with parameters [p] and its work not pending. *)
Definition machine (n : nat) (online : Z) (p : asmp_param_struct) : state :=
  {| nr_cpu_ids := n;
     cpu_present_mask := Z.ones (Z.of_nat n);
     cpu_online_mask := online;
     asmp_enabled := true;
     asmp_param := p;
     asmp_work := None;
     klog := [] |}.

(** An environment in which hotplug always succeeds, HZ is 100, CPU 0 tops
    out at [max_rate] and CPU [c] currently runs at [rates c]. *)
Definition sampled (max_rate : Z) (rates : nat -> Z) : env :=
  {| msecs_to_jiffies := fun m => (m + 9) / 10;
     cpufreq_quick_get_max := fun _ => max_rate;
     cpufreq_quick_get := rates;
     cpu_up_ok := fun _ => true;
     cpu_down_ok := fun _ => true |}.

(** ** Vocabulary of the properties *)

(** The part of the state that no hotplug or workqueue call touches. *)
Definition same_config (s s' : state) : Prop :=
  nr_cpu_ids s' = nr_cpu_ids s
  /\ cpu_present_mask s' = cpu_present_mask s
  /\ asmp_enabled s' = asmp_enabled s
  /\ asmp_param s' = asmp_param s.

(** The rate the tick reads for [cpu]. *)
Definition rate_of (e : env) (cpu : nat) : Z := u32 (cpufreq_quick_get e cpu).

(** The components of what [asmp_sample] returns. *)
Definition slow_cpu_of (r : nat * Z * Z) : nat := fst (fst r).
Definition slow_rate_of (r : nat * Z * Z) : Z := snd (fst r).
Definition fast_rate_of (r : nat * Z * Z) : Z := snd r.

(** The test [if (cpu)] of the loops: every CPU but CPU 0. *)
Definition secondary (cpu : nat) : bool := negb (cpu =? 0)%nat.

(** The aggregates as the specification words them: the minimum over every
    online CPU, and the maximum over the online secondary CPUs with CPU 0's
    own rate as the default when there is none.  Rates are 32-bit unsigned,
    so [UINT_MAX] and [0] are neutral for [min] and [max]. *)
Definition min_rate (e : env) (cpus : list nat) : Z :=
  fold_right Z.min UINT_MAX (map (rate_of e) cpus).

Definition max_rate (e : env) (cpus : list nat) : Z :=
  fold_right Z.max 0 (map (rate_of e) cpus).

Definition spec_slow_rate (e : env) (s : state) : Z :=
  min_rate e (for_each_online_cpu s).

Definition spec_fast_rate (e : env) (s : state) : Z :=
  match filter secondary (for_each_online_cpu s) with
  | [] => rate_of e 0%nat
  | cpus => max_rate e cpus
  end.

(** The core-count invariant. *)
Definition bounded (s : state) : Prop :=
  min_cpus (asmp_param s) <= num_online_cpus s <= max_cpus (asmp_param s).

(** What the loops of suspend, resume and disable read: the two masks, the
    number of possible CPUs and the parameters. *)
Definition hw (s : state) : nat * Z * Z * asmp_param_struct :=
  (nr_cpu_ids s, cpu_present_mask s, cpu_online_mask s, asmp_param s).

(** The loops leave everything but the online mask and the call log as it
    was. *)
Definition loop_frame (s s' : state) : Prop :=
  same_config s s' /\ asmp_work s' = asmp_work s.

(** From [s] to [s'] no [cpu_down] was called on CPU 0, and CPU 0 is still
    online if it was. *)
Definition spares_cpu0 (s s' : state) : Prop :=
  (cpu_online 0 s = true -> cpu_online 0 s' = true)
  /\ exists calls, klog s' = klog s ++ calls /\ ~ In (Kcpu_down 0) calls.

(** How many CPUs of [l] are offline, and how many secondary CPUs of [l]
    are online. *)
Definition offline_in (l : list nat) (s : state) : Z :=
  Z.of_nat (length (filter (fun c => negb (cpu_online c s)) l)).

Definition secondary_online_in (l : list nat) (s : state) : Z :=
  Z.of_nat (length (filter (fun c => secondary c && cpu_online c s) l)).

(** Online CPUs are present CPUs. *)
Definition online_present (s : state) : Prop :=
  forall c, (c < nr_cpu_ids s)%nat ->
            cpu_online c s = true -> cpu_present c s = true.

(** The resume loop has nothing to do for CPU [c]: [max_cpus] is reached,
    or [cpu_up] would fail on it (it is online already, or not present, or
    the platform refuses). *)
Definition up_settled (e : env) (s : state) (c : nat) : Prop :=
  (num_online_cpus s <? max_cpus (asmp_param s)) && cpu_up_succeeds e c s
  = false.

(** The suspend loop has nothing to do for CPU [c]. *)
Definition down_settled (e : env) (s : state) (c : nat) : Prop :=
  secondary c && (min_cpus (asmp_param s) <? num_online_cpus s)
  && cpu_down_succeeds e c s = false.

(** What the rest of the system can see of the controller: the masks and
    parameters, the enable flag and whether the work is pending (and with
    which delay). *)
Definition observable (s : state)
  : (nat * Z * Z * asmp_param_struct) * bool * option (auto_var Z) :=
  (hw s, asmp_enabled s, asmp_work s).

(** The limits of one tick and the action it settles on, with the
    automatic variable [cycle] at the value 1 it has at both tests. *)
Definition up_rate_of (e : env) (s : state) : Z :=
  u32 (cpufreq_up (asmp_param s) * u32 (cpufreq_quick_get_max e 0%nat)) / 100.

Definition down_rate_of (e : env) (s : state) : Z :=
  u32 (cpufreq_down (asmp_param s) * u32 (cpufreq_quick_get_max e 0%nat)) / 100.

Inductive hotplug_action : Type :=
| Act_none
| Act_up (cpu : nat)
| Act_down (cpu : nat).

Definition asmp_decision (e : env) (s : state) : hotplug_action :=
  let r := asmp_sample e s in
  if up_rate_of e s <? slow_rate_of r then
    if (num_online_cpus s <? max_cpus (asmp_param s))
       && (cycle_up (asmp_param s) <=? 1)
    then Act_up (cpumask_next_zero 0 (nr_cpu_ids s) (cpu_online_mask s))
    else Act_none
  else if secondary (slow_cpu_of r) && (fast_rate_of r <? down_rate_of e s) then
    if (min_cpus (asmp_param s) <? num_online_cpus s)
       && (cycle_down (asmp_param s) <=? 1)
    then Act_down (slow_cpu_of r)
    else Act_none
  else Act_none.

Definition apply_action (e : env) (a : hotplug_action) (s : state) : state :=
  match a with
  | Act_none => s
  | Act_up cpu => cpu_up e cpu s
  | Act_down cpu => cpu_down e cpu s
  end.

Definition action_calls (a : hotplug_action) : list kcall :=
  match a with
  | Act_none => []
  | Act_up cpu => [Kcpu_up cpu]
  | Act_down cpu => [Kcpu_down cpu]
  end.

(** * Properties *)

(** ** Counting bits of a cpumask *)

Section Counting.
Variables p q : nat -> bool.

Lemma filter_length_le (l : list nat) :
  (length (filter p l) <= length l)%nat.
Proof.
  induction l as [|x l IH]; simpl; [lia|].
  destruct (p x); simpl; lia.
Qed.

(** Two predicates that differ at one element of a duplicate-free list,
    where [q] holds and [p] does not, select lists one apart in length. *)
Lemma filter_length_flip (c : nat) (l : list nat) :
  NoDup l -> In c l -> p c = false -> q c = true ->
  (forall x, x <> c -> q x = p x) ->
  length (filter q l) = S (length (filter p l)).
Proof.
  intros Hnd Hin Hp Hq Hext.
  induction l as [|x l IH]; [contradiction|].
  inversion Hnd as [|? ? Hx Hl]; subst.
  destruct (Nat.eq_dec x c) as [->|Hne].
  - simpl. rewrite Hp, Hq. simpl. f_equal. f_equal.
    apply filter_ext_in. intros a Ha. apply Hext.
    intros ->. contradiction.
  - destruct Hin as [->|Hin]; [congruence|].
    simpl. rewrite (Hext x Hne). destruct (p x); simpl; rewrite IH; auto.
Qed.

(** Splitting the elements selected by [p] along [q], when [q] implies
    [p] on the list. *)
Lemma filter_length_split (l : list nat) :
  (forall x, In x l -> q x = true -> p x = true) ->
  (length (filter q l)
   + length (filter (fun x => negb (q x)) (filter p l)))%nat
  = length (filter p l).
Proof.
  induction l as [|x l IH]; intros Hsub; [reflexivity|].
  assert (Hl : forall y, In y l -> q y = true -> p y = true)
    by (intros y Hy; apply Hsub; right; exact Hy).
  specialize (IH Hl). simpl.
  destruct (q x) eqn:Hq.
  - rewrite (Hsub x (or_introl eq_refl) Hq). simpl. rewrite Hq. simpl. lia.
  - destruct (p x); simpl; [rewrite Hq; simpl|]; lia.
Qed.
End Counting.

Lemma testbit_setbit (m : Z) (c x : nat) :
  cpumask_test_cpu x (Z.setbit m (Z.of_nat c))
  = (x =? c)%nat || cpumask_test_cpu x m.
Proof.
  unfold cpumask_test_cpu. rewrite Z.setbit_eqb by lia.
  destruct (Nat.eqb_spec x c) as [->|Hne].
  - now rewrite Z.eqb_refl.
  - destruct (Z.eqb_spec (Z.of_nat c) (Z.of_nat x)); [lia|reflexivity].
Qed.

Lemma testbit_clearbit (m : Z) (c x : nat) :
  cpumask_test_cpu x (Z.clearbit m (Z.of_nat c))
  = negb (x =? c)%nat && cpumask_test_cpu x m.
Proof.
  unfold cpumask_test_cpu. rewrite Z.clearbit_eqb.
  destruct (Nat.eqb_spec x c) as [->|Hne].
  - rewrite Z.eqb_refl. now rewrite andb_false_r.
  - destruct (Z.eqb_spec (Z.of_nat c) (Z.of_nat x)); [lia|].
    now rewrite andb_true_r.
Qed.

Lemma for_each_cpu_In (n : nat) (m : Z) (c : nat) :
  In c (for_each_cpu n m) <-> (c < n)%nat /\ cpumask_test_cpu c m = true.
Proof.
  unfold for_each_cpu. rewrite filter_In, in_seq. intuition lia.
Qed.

Lemma for_each_cpu_NoDup (n : nat) (m : Z) : NoDup (for_each_cpu n m).
Proof. apply NoDup_filter, seq_NoDup. Qed.

Lemma cpumask_weight_setbit (n : nat) (m : Z) (c : nat) :
  (c < n)%nat -> cpumask_test_cpu c m = false ->
  cpumask_weight n (Z.setbit m (Z.of_nat c)) = cpumask_weight n m + 1.
Proof.
  intros Hc Hbit. unfold cpumask_weight, for_each_cpu.
  rewrite (filter_length_flip (fun x => cpumask_test_cpu x m) _ c).
  - lia.
  - apply seq_NoDup.
  - apply in_seq. lia.
  - exact Hbit.
  - rewrite testbit_setbit, Nat.eqb_refl. reflexivity.
  - intros x Hx. rewrite testbit_setbit.
    destruct (Nat.eqb_spec x c); [contradiction|reflexivity].
Qed.

Lemma cpumask_weight_clearbit (n : nat) (m : Z) (c : nat) :
  (c < n)%nat -> cpumask_test_cpu c m = true ->
  cpumask_weight n (Z.clearbit m (Z.of_nat c)) = cpumask_weight n m - 1.
Proof.
  intros Hc Hbit. unfold cpumask_weight, for_each_cpu.
  rewrite (filter_length_flip
             (fun x => cpumask_test_cpu x (Z.clearbit m (Z.of_nat c)))
             (fun x => cpumask_test_cpu x m) c (seq 0 n)).
  - lia.
  - apply seq_NoDup.
  - apply in_seq. lia.
  - rewrite testbit_clearbit, Nat.eqb_refl. reflexivity.
  - exact Hbit.
  - intros x Hx. rewrite testbit_clearbit.
    destruct (Nat.eqb_spec x c); [contradiction|reflexivity].
Qed.

Lemma cpumask_weight_bounds (n : nat) (m : Z) :
  0 <= cpumask_weight n m <= Z.of_nat n.
Proof.
  unfold cpumask_weight, for_each_cpu.
  pose proof (filter_length_le (fun x => cpumask_test_cpu x m) (seq 0 n)) as H.
  rewrite length_seq in H. lia.
Qed.

Lemma filter_all (A : Type) (f : A -> bool) (l : list A) :
  (forall a, In a l -> f a = true) -> filter f l = l.
Proof.
  induction l as [|x l IH]; intros H; [reflexivity|].
  simpl. rewrite (H x (or_introl eq_refl)). f_equal.
  apply IH. intros a Ha. apply H. right. exact Ha.
Qed.

(** With CPU 0 set, a mask is visited as CPU 0 followed by the secondary
    CPUs. *)
Lemma for_each_cpu_head (n : nat) (m : Z) :
  (0 < n)%nat -> cpumask_test_cpu 0 m = true ->
  for_each_cpu n m
  = 0%nat :: filter (fun cpu => negb (cpu =? 0)%nat) (for_each_cpu n m).
Proof.
  intros Hn H0. destruct n as [|n]; [lia|].
  unfold for_each_cpu. simpl seq. simpl filter. rewrite H0. simpl.
  f_equal. symmetry. apply filter_all.
  intros a Ha. apply filter_In in Ha. destruct Ha as [Ha _].
  apply in_seq in Ha. destruct a; [lia|reflexivity].
Qed.

(** ** What the kernel primitives change *)

Lemma same_config_refl (s : state) : same_config s s.
Proof. repeat split. Qed.

Lemma same_config_trans (s1 s2 s3 : state) :
  same_config s1 s2 -> same_config s2 s3 -> same_config s1 s3.
Proof.
  unfold same_config. intros (A1 & A2 & A3 & A4) (B1 & B2 & B3 & B4).
  repeat split; congruence.
Qed.

Lemma cpu_up_config (e : env) (c : nat) (s : state) :
  same_config s (cpu_up e c s) /\ asmp_work (cpu_up e c s) = asmp_work s.
Proof.
  unfold cpu_up, same_config.
  destruct (cpu_up_succeeds e c (trace (Kcpu_up c) s)); repeat split.
Qed.

Lemma cpu_down_config (e : env) (c : nat) (s : state) :
  same_config s (cpu_down e c s) /\ asmp_work (cpu_down e c s) = asmp_work s.
Proof.
  unfold cpu_down, same_config.
  destruct (cpu_down_succeeds e c (trace (Kcpu_down c) s)); repeat split.
Qed.

Lemma cpu_up_klog (e : env) (c : nat) (s : state) :
  klog (cpu_up e c s) = klog s ++ [Kcpu_up c].
Proof.
  unfold cpu_up. destruct (cpu_up_succeeds e c (trace (Kcpu_up c) s));
    reflexivity.
Qed.

Lemma cpu_down_klog (e : env) (c : nat) (s : state) :
  klog (cpu_down e c s) = klog s ++ [Kcpu_down c].
Proof.
  unfold cpu_down. destruct (cpu_down_succeeds e c (trace (Kcpu_down c) s));
    reflexivity.
Qed.

Lemma cpu_up_mask (e : env) (c : nat) (s : state) :
  cpu_online_mask (cpu_up e c s)
  = if cpu_up_succeeds e c s
    then Z.setbit (cpu_online_mask s) (Z.of_nat c)
    else cpu_online_mask s.
Proof.
  unfold cpu_up.
  change (cpu_up_succeeds e c (trace (Kcpu_up c) s))
    with (cpu_up_succeeds e c s).
  destruct (cpu_up_succeeds e c s); reflexivity.
Qed.

Lemma cpu_down_mask (e : env) (c : nat) (s : state) :
  cpu_online_mask (cpu_down e c s)
  = if cpu_down_succeeds e c s
    then Z.clearbit (cpu_online_mask s) (Z.of_nat c)
    else cpu_online_mask s.
Proof.
  unfold cpu_down.
  change (cpu_down_succeeds e c (trace (Kcpu_down c) s))
    with (cpu_down_succeeds e c s).
  destruct (cpu_down_succeeds e c s); reflexivity.
Qed.

Lemma num_online_cpu_up (e : env) (c : nat) (s : state) :
  num_online_cpus (cpu_up e c s)
  = num_online_cpus s + (if cpu_up_succeeds e c s then 1 else 0).
Proof.
  unfold num_online_cpus.
  destruct (cpu_up_config e c s) as [(Hn & _) _].
  rewrite Hn, cpu_up_mask.
  destruct (cpu_up_succeeds e c s) eqn:Hok; [|lia].
  unfold cpu_up_succeeds in Hok.
  apply andb_true_iff in Hok. destruct Hok as [Hok _].
  apply andb_true_iff in Hok. destruct Hok as [Hok Hoff].
  apply andb_true_iff in Hok. destruct Hok as [Hlt _].
  apply Nat.ltb_lt in Hlt. apply negb_true_iff in Hoff.
  now apply cpumask_weight_setbit.
Qed.

Lemma num_online_cpu_down (e : env) (c : nat) (s : state) :
  num_online_cpus (cpu_down e c s)
  = num_online_cpus s - (if cpu_down_succeeds e c s then 1 else 0).
Proof.
  unfold num_online_cpus.
  destruct (cpu_down_config e c s) as [(Hn & _) _].
  rewrite Hn, cpu_down_mask.
  destruct (cpu_down_succeeds e c s) eqn:Hok; [|lia].
  unfold cpu_down_succeeds in Hok.
  apply andb_true_iff in Hok. destruct Hok as [Hok _].
  apply andb_true_iff in Hok. destruct Hok as [Hlt Hon].
  apply Nat.ltb_lt in Hlt.
  now apply cpumask_weight_clearbit.
Qed.

Lemma cpu_online_cpu_up (e : env) (c x : nat) (s : state) :
  cpu_online x (cpu_up e c s)
  = (cpu_up_succeeds e c s && (x =? c)%nat) || cpu_online x s.
Proof.
  unfold cpu_online. rewrite cpu_up_mask.
  destruct (cpu_up_succeeds e c s); [apply testbit_setbit|reflexivity].
Qed.

Lemma cpu_online_cpu_down (e : env) (c x : nat) (s : state) :
  cpu_online x (cpu_down e c s)
  = negb (cpu_down_succeeds e c s && (x =? c)%nat) && cpu_online x s.
Proof.
  unfold cpu_online. rewrite cpu_down_mask.
  destruct (cpu_down_succeeds e c s); [apply testbit_clearbit|reflexivity].
Qed.

Lemma queue_delayed_work_config (d : auto_var Z) (s : state) :
  same_config s (queue_delayed_work d s)
  /\ cpu_online_mask (queue_delayed_work d s) = cpu_online_mask s.
Proof.
  unfold queue_delayed_work, same_config. simpl.
  destruct (asmp_work s); repeat split.
Qed.

Lemma queue_delayed_work_klog (d : auto_var Z) (s : state) :
  klog (queue_delayed_work d s) = klog s ++ [Kqueue_delayed_work d].
Proof.
  unfold queue_delayed_work. simpl. destruct (asmp_work s); reflexivity.
Qed.

Lemma queue_delayed_work_pending (d : auto_var Z) (s : state) :
  asmp_work (queue_delayed_work d s)
  = match asmp_work s with Some w => Some w | None => Some d end.
Proof.
  unfold queue_delayed_work. simpl.
  destruct (asmp_work s) eqn:Hw; simpl; [exact Hw|reflexivity].
Qed.

Lemma num_online_queue_delayed_work (d : auto_var Z) (s : state) :
  num_online_cpus (queue_delayed_work d s) = num_online_cpus s.
Proof.
  unfold num_online_cpus.
  destruct (queue_delayed_work_config d s) as [(Hn & _) Hm].
  now rewrite Hn, Hm.
Qed.

(** ** The sampling loop *)

Lemma u32_range (z : Z) : 0 <= u32 z <= UINT_MAX.
Proof.
  unfold u32, UINT_MAX.
  pose proof (Z.mod_pos_bound z 4294967296 ltac:(lia)). lia.
Qed.

Lemma rate_of_range (e : env) (c : nat) : 0 <= rate_of e c <= UINT_MAX.
Proof. apply u32_range. Qed.

Lemma min_rate_le (e : env) (l : list nat) : min_rate e l <= UINT_MAX.
Proof.
  unfold min_rate. induction l as [|c l IH]; simpl; lia.
Qed.

Lemma max_rate_ge (e : env) (l : list nat) : 0 <= max_rate e l.
Proof.
  unfold max_rate. induction l as [|c l IH]; simpl; lia.
Qed.

Lemma scan_cpu_primary (e : env) (acc : nat * Z * Z) :
  scan_cpu e acc 0%nat = acc.
Proof. destruct acc as [[sc sl] fa]. reflexivity. Qed.

Lemma scan_cpu_eq (e : env) (sc : nat) (sl fa : Z) (c : nat) :
  scan_cpu e (sc, sl, fa) c
  = if secondary c then
      if rate_of e c <=? sl then (c, rate_of e c, fa)
      else if fa <? rate_of e c then (sc, sl, rate_of e c)
      else (sc, sl, fa)
    else (sc, sl, fa).
Proof. reflexivity. Qed.

(** What the loop leaves in [slow_rate] and [fast_rate] after visiting
    [l], from any starting accumulator. *)
Lemma scan_rates (e : env) (l : list nat) (acc : nat * Z * Z) :
  slow_rate_of acc <= UINT_MAX ->
  let r := fold_left (scan_cpu e) l acc in
  slow_rate_of r = Z.min (slow_rate_of acc) (min_rate e (filter secondary l))
  /\ fast_rate_of acc <= fast_rate_of r
     <= Z.max (fast_rate_of acc) (max_rate e (filter secondary l))
  /\ (filter secondary l = [] -> fast_rate_of r = fast_rate_of acc).
Proof.
  revert acc. induction l as [|c l IH]; intros [[sc sl] fa] Hsl.
  - cbn in *. repeat split; lia.
  - cbn [fold_left filter]. rewrite scan_cpu_eq.
    pose proof (rate_of_range e c) as Hc.
    pose proof (min_rate_le e (filter secondary l)) as Hmin.
    pose proof (max_rate_ge e (filter secondary l)) as Hmax.
    destruct (secondary c) eqn:Hsec.
    + change (min_rate e (c :: filter secondary l))
        with (Z.min (rate_of e c) (min_rate e (filter secondary l))).
      change (max_rate e (c :: filter secondary l))
        with (Z.max (rate_of e c) (max_rate e (filter secondary l))).
      destruct (Z.leb_spec (rate_of e c) sl) as [Hle|Hgt].
      * destruct (IH (c, rate_of e c, fa)) as (A & B & _); [cbn; lia|].
        cbn in *. repeat split; try lia. discriminate.
      * destruct (Z.ltb_spec fa (rate_of e c)) as [Hlt|Hge].
        -- destruct (IH (sc, sl, rate_of e c) Hsl) as (A & B & _).
           cbn in *. repeat split; try lia. discriminate.
        -- destruct (IH (sc, sl, fa) Hsl) as (A & B & _).
           cbn in *. repeat split; try lia. discriminate.
    + destruct (IH (sc, sl, fa) Hsl) as (A & B & C).
      cbn in *. repeat split; try lia. exact C.
Qed.

Lemma asmp_sample_eq (e : env) (s : state) :
  asmp_sample e s
  = let r := fold_left (scan_cpu e) (for_each_online_cpu s)
                       (0%nat, UINT_MAX, rate_of e 0%nat) in
    (slow_cpu_of r, Z.min (rate_of e 0%nat) (slow_rate_of r), fast_rate_of r).
Proof.
  unfold asmp_sample. fold (rate_of e 0%nat). cbv zeta.
  destruct (fold_left _ _ _) as [[sc sl] fa]. cbn.
  destruct (Z.ltb_spec (rate_of e 0%nat) sl); f_equal; f_equal; lia.
Qed.

(** [fast_rate] starts from CPU 0's rate and only grows. *)
Lemma fast_rate_ge_cpu0 (e : env) (s : state) :
  rate_of e 0%nat <= fast_rate_of (asmp_sample e s).
Proof.
  rewrite asmp_sample_eq. cbv zeta.
  destruct (scan_rates e (for_each_online_cpu s)
              (0%nat, UINT_MAX, rate_of e 0%nat)) as (_ & B & _).
  - cbn. lia.
  - cbn in *. lia.
Qed.

(** C4 (amended): with CPU 0 online, [slow_rate] is the minimum sampled
    rate over all online CPUs, CPU 0 included.  [fast_rate] also counts
    CPU 0: it is never below CPU 0's rate, never above the maximum sampled
    rate over all online CPUs, and it is CPU 0's rate when no secondary CPU
    is online. *)
Theorem asmp_sample_aggregates (e : env) (s : state) :
  (0 < nr_cpu_ids s)%nat -> cpu_online 0 s = true ->
  slow_rate_of (asmp_sample e s) = spec_slow_rate e s
  /\ rate_of e 0%nat <= fast_rate_of (asmp_sample e s)
     <= max_rate e (for_each_online_cpu s)
  /\ (filter secondary (for_each_online_cpu s) = [] ->
      fast_rate_of (asmp_sample e s) = rate_of e 0%nat).
Proof.
  intros Hn H0.
  pose proof (for_each_cpu_head _ _ Hn H0) as Hhd.
  fold (for_each_online_cpu s) in Hhd. fold secondary in Hhd.
  rewrite asmp_sample_eq. cbv zeta. unfold spec_slow_rate.
  destruct (scan_rates e (for_each_online_cpu s)
              (0%nat, UINT_MAX, rate_of e 0%nat)) as (A & B & C);
    [cbn; lia|].
  remember (for_each_online_cpu s) as on eqn:Hon.
  remember (filter secondary on) as np eqn:Hnp.
  pose proof (min_rate_le e np) as Hmin.
  pose proof (max_rate_ge e np) as Hmax.
  assert (Hmin0 : min_rate e on = Z.min (rate_of e 0%nat) (min_rate e np))
    by (rewrite Hhd; reflexivity).
  assert (Hmax0 : max_rate e on = Z.max (rate_of e 0%nat) (max_rate e np))
    by (rewrite Hhd; reflexivity).
  cbn in *. repeat split; try lia. exact C.
Qed.

Lemma asmp_sample_aggregates_witness :
  let e := sampled 1000 (fun c => match c with O => 700 | _ => 400 end) in
  let s := machine 4 7 (asmp_param_init 4) in
  slow_rate_of (asmp_sample e s) = spec_slow_rate e s
  /\ rate_of e 0%nat <= fast_rate_of (asmp_sample e s)
     <= max_rate e (for_each_online_cpu s)
  /\ (filter secondary (for_each_online_cpu s) = [] ->
      fast_rate_of (asmp_sample e s) = rate_of e 0%nat).
Proof.
  intros e s. apply (asmp_sample_aggregates e s).
  - simpl. lia.
  - reflexivity.
Defined.

(** C4 as first stated fails: with CPU 0 at rate 1000 and CPU 1 at rate
    500, the maximum over the secondary CPUs is 500 but [fast_rate] is
    1000. *)
Lemma asmp_sample_fast_rate_counts_cpu0 :
  let e := sampled 1000 (fun c => match c with O => 1000 | _ => 500 end) in
  let s := machine 2 3 (asmp_param_init 2) in
  cpu_online 0 s = true
  /\ for_each_online_cpu s = [0; 1]%nat
  /\ spec_fast_rate e s = 500
  /\ fast_rate_of (asmp_sample e s) = 1000
  /\ fast_rate_of (asmp_sample e s) <> spec_fast_rate e s.
Proof. vm_compute. repeat split; discriminate. Qed.

(** ** One tick *)

Lemma bounded_same_config (s s' : state) :
  same_config s s' -> num_online_cpus s' = num_online_cpus s ->
  bounded s -> bounded s'.
Proof.
  unfold bounded. intros (_ & _ & _ & Hp) Hn. rewrite Hp, Hn. trivial.
Qed.

Lemma bounded_queue_delayed_work (d : auto_var Z) (s : state) :
  bounded s -> bounded (queue_delayed_work d s).
Proof.
  apply bounded_same_config.
  - apply queue_delayed_work_config.
  - apply num_online_queue_delayed_work.
Qed.

(** C5: a tick that starts with [min_cpus <= online <= max_cpus] ends
    with it: the one [cpu_up] is guarded by [online < max_cpus] and the one
    [cpu_down] by [online > min_cpus]. *)
Theorem asmp_work_fn_keeps_bounds (e : env) (s : state) :
  bounded s -> bounded (asmp_work_fn e s).
Proof.
  intros Hb. unfold asmp_work_fn.
  destruct (asmp_enabled s); [|now apply bounded_queue_delayed_work].
  destruct (asmp_sample e s) as [[slow_cpu slow_rate] fast_rate].
  apply bounded_queue_delayed_work.
  destruct (_ <? slow_rate).
  - destruct (Z.ltb_spec (num_online_cpus s) (max_cpus (asmp_param s)));
      [|exact Hb].
    destruct (_ <=? _); [|exact Hb].
    cbn [andb]. unfold bounded in *. rewrite num_online_cpu_up.
    destruct (cpu_up_config e (cpumask_next_zero 0 (nr_cpu_ids s)
                                 (cpu_online_mask s)) s)
      as [(_ & _ & _ & Hp) _].
    rewrite Hp. destruct (cpu_up_succeeds _ _ _); lia.
  - destruct (negb _ && _); [|exact Hb].
    destruct (Z.ltb_spec (min_cpus (asmp_param s)) (num_online_cpus s));
      [|exact Hb].
    destruct (_ <=? _); [|exact Hb].
    cbn [andb]. unfold bounded in *. rewrite num_online_cpu_down.
    destruct (cpu_down_config e slow_cpu s) as [(_ & _ & _ & Hp) _].
    rewrite Hp. destruct (cpu_down_succeeds _ _ _); lia.
Qed.

Lemma asmp_work_fn_keeps_bounds_witness :
  let e := sampled 1000 (fun _ => 950) in
  let s := machine 4 3 (asmp_param_init 4) in
  bounded s /\ bounded (asmp_work_fn e s) /\ num_online_cpus (asmp_work_fn e s) = 3.
Proof.
  intros e s.
  assert (Hb : bounded s) by (unfold bounded; simpl; vm_compute; split; discriminate).
  split; [exact Hb|]. split; [apply (asmp_work_fn_keeps_bounds e s Hb)|].
  reflexivity.
Defined.

(** C10: entered with [asmp_enabled] clear, the tick does nothing but
    queue itself again, and the delay it hands to [queue_delayed_work] is
    the automatic variable [delay_jif] that no assignment has reached: the
    timer of the next tick is armed with an indeterminate value. *)
Theorem asmp_work_fn_disabled_delay_indeterminate (e : env) (s : state) :
  asmp_enabled s = false ->
  asmp_work_fn e s = queue_delayed_work Indeterminate s
  /\ klog (asmp_work_fn e s) = klog s ++ [Kqueue_delayed_work Indeterminate]
  /\ (forall w, asmp_work s = Some w ->
      asmp_work (process_one_work e s) = Some Indeterminate).
Proof.
  intros Hen.
  assert (Hfn : forall s', asmp_enabled s' = false ->
                asmp_work_fn e s' = queue_delayed_work Indeterminate s')
    by (intros s' H; unfold asmp_work_fn; now rewrite H).
  split; [now apply Hfn|]. split.
  - rewrite (Hfn s Hen). apply queue_delayed_work_klog.
  - intros w Hw. unfold process_one_work. rewrite Hw.
    rewrite Hfn by exact Hen. reflexivity.
Qed.

Lemma asmp_work_fn_disabled_delay_indeterminate_witness :
  let e := sampled 1000 (fun _ => 950) in
  let s := set_work (Some (Assigned 10))
             (set_enabled_flag false (machine 4 15 (asmp_param_init 4))) in
  asmp_work_fn e s = queue_delayed_work Indeterminate s
  /\ klog (asmp_work_fn e s) = klog s ++ [Kqueue_delayed_work Indeterminate]
  /\ (forall w, asmp_work s = Some w ->
      asmp_work (process_one_work e s) = Some Indeterminate).
Proof.
  intros e s. apply (asmp_work_fn_disabled_delay_indeterminate e s).
  reflexivity.
Defined.

Lemma queue_delayed_work_eq (d : auto_var Z) (s : state) :
  queue_delayed_work d s
  = match asmp_work s with
    | Some _ => trace (Kqueue_delayed_work d) s
    | None => set_work (Some d) (trace (Kqueue_delayed_work d) s)
    end.
Proof. reflexivity. Qed.

(** [cycle] is an automatic variable of the tick: it is 1 at both tests,
    so thresholds above 1 switch hotplugging off altogether. *)
Lemma asmp_work_fn_cycle_local (e : env) (s : state) :
  asmp_enabled s = true ->
  1 < cycle_up (asmp_param s) -> 1 < cycle_down (asmp_param s) ->
  asmp_work_fn e s
  = queue_delayed_work
      (Assigned (msecs_to_jiffies e (delay (asmp_param s)))) s.
Proof.
  intros Hen Hup Hdown. unfold asmp_work_fn. rewrite Hen.
  change (u32 (0 + 1)) with 1.
  destruct (asmp_sample e s) as [[slow_cpu slow_rate] fast_rate].
  destruct (Z.leb_spec (cycle_up (asmp_param s)) 1); [lia|].
  destruct (Z.leb_spec (cycle_down (asmp_param s)) 1); [lia|].
  rewrite !andb_false_r.
  destruct (_ <? slow_rate); [reflexivity|].
  destruct (negb _ && _); reflexivity.
Qed.

(** C1 fails on this code.  Two CPUs, CPU 0 online, [cycle_up = 2], every
    tick saturated (rate 950 against an up limit of 900): the second
    saturated tick should bring CPU 1 online, but neither it nor any later
    tick calls [cpu_up]; each tick only queues the next one. *)
Theorem asmp_work_fn_cycle_up_2_never_scales_up :
  let e := sampled 1000 (fun _ => 950) in
  let s0 := asmp_init e (machine 2 1 (set_cycle_up 2 (asmp_param_init 2))) in
  let s2 := asmp_run [Work e; Work e] s0 in
  let s4 := asmp_run [Work e; Work e] s2 in
  klog s2 = [Kqueue_delayed_work (Assigned 2000);
             Kqueue_delayed_work (Assigned 10);
             Kqueue_delayed_work (Assigned 10)]
  /\ cpu_online_mask s2 = 1
  /\ cpu_online_mask s4 = 1
  /\ ~ In (Kcpu_up 1) (klog s4).
Proof.
  vm_compute. repeat split.
  intros H. repeat (destruct H as [H|H]; [discriminate|]). exact H.
Qed.

(** With the default [cycle_up = 1] the same load brings CPU 1 online at
    the first tick. *)
Example asmp_work_fn_cycle_up_1 :
  let e := sampled 1000 (fun _ => 950) in
  let s0 := asmp_init e (machine 2 1 (asmp_param_init 2)) in
  klog (asmp_run [Work e] s0)
  = [Kqueue_delayed_work (Assigned 2000); Kcpu_up 1;
     Kqueue_delayed_work (Assigned 10)]
  /\ cpu_online_mask (asmp_run [Work e] s0) = 3.
Proof. vm_compute. split; reflexivity. Qed.

(** Scenario B with both thresholds met but [cycle_down = 2]: CPU 1 stays
    online after the second idle tick as well. *)
Example asmp_work_fn_cycle_down_2 :
  let e := sampled 1000 (fun _ => 500) in
  let s0 := asmp_init e (machine 2 3 (set_cycle_down 2 (asmp_param_init 2))) in
  cpu_online_mask (asmp_run [Work e; Work e] s0) = 3.
Proof. reflexivity. Qed.

(** C3 as first stated fails: the read of the maximum rate of CPU 0
    (line 79) finds no policy and returns 0, the later read of its current
    rate (line 85) returns 500, and the tick brings CPU 1 online. *)
Lemma asmp_work_fn_max_rate_unread_scales_up :
  let e := sampled 0 (fun _ => 500) in
  let s := machine 2 1 (asmp_param_init 2) in
  klog (asmp_work_fn e s)
  = [Kcpu_up 1; Kqueue_delayed_work (Assigned 10)]
  /\ cpu_online_mask s = 1
  /\ cpu_online_mask (asmp_work_fn e s) = 3.
Proof. vm_compute. repeat split. Qed.

(** C3 (amended): the tick has no fault path and never tests the maximum
    rate it read.  When the maximum rate of CPU 0 cannot be read it is seen
    as 0, both limits are 0, and the tick goes on to its ordinary decision:
    it never calls [cpu_down]; it calls [cpu_up] once, naming the first
    clear bit of the online mask after CPU 0 ([nr_cpu_ids] when there is
    none), exactly when [slow_rate] (the lowest rate sampled) is not 0,
    fewer than [max_cpus] CPUs are online and [cycle_up <= 1]; and it
    always queues the next tick with the configured delay.  When the current rate of CPU 0 reads 0 as well,
    [slow_rate] is 0 and the tick makes no hotplug call at all. *)
Theorem asmp_work_fn_max_rate_unread (e : env) (s : state) :
  asmp_enabled s = true ->
  u32 (cpufreq_quick_get_max e 0%nat) = 0 ->
  let scale_up := (0 <? slow_rate_of (asmp_sample e s))
                  && (num_online_cpus s <? max_cpus (asmp_param s))
                  && (cycle_up (asmp_param s) <=? 1) in
  let cpu := cpumask_next_zero 0 (nr_cpu_ids s) (cpu_online_mask s) in
  let delay_jif := Assigned (msecs_to_jiffies e (delay (asmp_param s))) in
  asmp_work_fn e s
  = queue_delayed_work delay_jif (if scale_up then cpu_up e cpu s else s)
  /\ klog (asmp_work_fn e s)
     = klog s ++ (if scale_up then [Kcpu_up cpu] else [])
       ++ [Kqueue_delayed_work delay_jif]
  /\ (u32 (cpufreq_quick_get e 0%nat) = 0 ->
      asmp_work_fn e s = queue_delayed_work delay_jif s).
Proof.
  intros Hen Hmax. cbv zeta.
  assert (Hfn :
    asmp_work_fn e s
    = queue_delayed_work
        (Assigned (msecs_to_jiffies e (delay (asmp_param s))))
        (if (0 <? slow_rate_of (asmp_sample e s))
            && (num_online_cpus s <? max_cpus (asmp_param s))
            && (cycle_up (asmp_param s) <=? 1)
         then cpu_up e (cpumask_next_zero 0 (nr_cpu_ids s)
                          (cpu_online_mask s)) s
         else s)).
  { unfold asmp_work_fn. rewrite Hen, Hmax.
    change (u32 (0 + 1)) with 1. rewrite !Z.mul_0_r.
    change (u32 0 / 100) with 0.
    pose proof (fast_rate_ge_cpu0 e s) as Hfast.
    pose proof (rate_of_range e 0%nat) as H0.
    destruct (asmp_sample e s) as [[slow_cpu slow_rate] fast_rate].
    cbn [slow_rate_of fast_rate_of fst snd] in *.
    destruct (0 <? slow_rate).
    - cbn [andb]. destruct (_ && _); reflexivity.
    - destruct (Z.ltb_spec fast_rate 0); [lia|].
      rewrite andb_false_r. reflexivity. }
  split; [exact Hfn|]. split.
  - rewrite Hfn, queue_delayed_work_klog.
    destruct (_ && _); [rewrite cpu_up_klog, <- app_assoc|]; reflexivity.
  - intros Hcur. rewrite Hfn.
    assert (Hslow : (0 <? slow_rate_of (asmp_sample e s)) = false).
    { rewrite asmp_sample_eq. cbv zeta. cbn [slow_rate_of fst snd].
      unfold rate_of. rewrite Hcur. apply Z.ltb_ge. lia. }
    rewrite Hslow. reflexivity.
Qed.

Lemma asmp_work_fn_max_rate_unread_witness :
  let e := sampled 0 (fun _ => 500) in
  let s := machine 4 3 (asmp_param_init 4) in
  let scale_up := (0 <? slow_rate_of (asmp_sample e s))
                  && (num_online_cpus s <? max_cpus (asmp_param s))
                  && (cycle_up (asmp_param s) <=? 1) in
  let cpu := cpumask_next_zero 0 (nr_cpu_ids s) (cpu_online_mask s) in
  let delay_jif := Assigned (msecs_to_jiffies e (delay (asmp_param s))) in
  asmp_work_fn e s
  = queue_delayed_work delay_jif (if scale_up then cpu_up e cpu s else s)
  /\ klog (asmp_work_fn e s)
     = klog s ++ (if scale_up then [Kcpu_up cpu] else [])
       ++ [Kqueue_delayed_work delay_jif]
  /\ (u32 (cpufreq_quick_get e 0%nat) = 0 ->
      asmp_work_fn e s = queue_delayed_work delay_jif s).
Proof.
  intros e s. apply (asmp_work_fn_max_rate_unread e s); reflexivity.
Defined.

(** ** sysfs stores *)

(** C6 as first stated fails: numeric input is stored whatever its value.
    On a four-CPU machine with the default parameters, writing 0 to
    [min_cpus], 9 to [max_cpus] and 0 to [delay] is accepted each time (the
    handler returns [count]) and replaces the prior value. *)
Lemma store_one_out_of_range_accepted :
  let s := machine 4 15 (asmp_param_init 4) in
  (min_cpus (asmp_param s) = 1
   /\ store_one attr_min_cpus "0" 2 s
      = (set_param (set_min_cpus 0 (asmp_param s)) s, 2))
  /\ (max_cpus (asmp_param s) = 4
      /\ store_one attr_max_cpus "9" 2 s
         = (set_param (set_max_cpus 9 (asmp_param s)) s, 2))
  /\ (delay (asmp_param s) = 100
      /\ store_one attr_delay "0" 2 s
         = (set_param (set_delay 0 (asmp_param s)) s, 2)).
Proof. repeat split. Qed.

Lemma show_assign_one (a b : asmp_attr) (input : Z) (p : asmp_param_struct) :
  show_one b (assign_one a input p)
  = if match a, b with
       | attr_delay, attr_delay | attr_min_cpus, attr_min_cpus
       | attr_max_cpus, attr_max_cpus | attr_cpufreq_up, attr_cpufreq_up
       | attr_cpufreq_down, attr_cpufreq_down | attr_cycle_up, attr_cycle_up
       | attr_cycle_down, attr_cycle_down => true
       | _, _ => false
       end
    then input else show_one b p.
Proof. destruct a, b; reflexivity. Qed.

(** Input whose first character after the white space is not a decimal
    digit converts nothing. *)
Lemma sscanf_u_non_numeric (buf : string) :
  match skip_spaces buf with
  | String c _ => isdigit c = false
  | EmptyString => True
  end ->
  sscanf_u buf = None.
Proof.
  unfold sscanf_u. destruct buf as [|c0 rest]; [reflexivity|].
  destruct (skip_spaces (String c0 rest)) as [|c r]; [reflexivity|].
  intros ->. reflexivity.
Qed.

(** C6 (amended): a write that [sscanf] cannot convert (non-numeric
    input) is rejected with [-EINVAL] and leaves the state as it was.  A
    write that converts is accepted whatever the value: the handler returns
    [count], the attribute reads back as the converted value, and the other
    attributes and the rest of the state are untouched.  There is no range
    check. *)
Theorem store_one_effect (a : asmp_attr) (buf : string) (count : Z) (s : state) :
  match sscanf_u buf with
  | None => store_one a buf count s = (s, - EINVAL)
  | Some input =>
      let s' := fst (store_one a buf count s) in
      snd (store_one a buf count s) = count
      /\ show_one a (asmp_param s') = input
      /\ (forall b, b <> a ->
          show_one b (asmp_param s') = show_one b (asmp_param s))
      /\ set_param (asmp_param s) s' = s
  end.
Proof.
  unfold store_one. destruct (sscanf_u buf) as [input|]; [|reflexivity].
  cbn [fst snd asmp_param set_param]. repeat split.
  - rewrite show_assign_one. destruct a; reflexivity.
  - intros b Hb. rewrite show_assign_one.
    destruct a, b; try reflexivity; contradiction.
  - destruct s; reflexivity.
Qed.

(** ** The hotplug loops *)

Lemma hw_inv (s s' : state) :
  hw s' = hw s ->
  nr_cpu_ids s' = nr_cpu_ids s /\ cpu_present_mask s' = cpu_present_mask s
  /\ cpu_online_mask s' = cpu_online_mask s /\ asmp_param s' = asmp_param s.
Proof. unfold hw. intros H. inversion H. auto. Qed.

Lemma num_online_hw (s s' : state) :
  hw s' = hw s -> num_online_cpus s' = num_online_cpus s.
Proof.
  intros H. apply hw_inv in H. destruct H as (Hn & _ & Hm & _).
  unfold num_online_cpus. now rewrite Hn, Hm.
Qed.

Lemma cpu_online_hw (s s' : state) (c : nat) :
  hw s' = hw s -> cpu_online c s' = cpu_online c s.
Proof.
  intros H. apply hw_inv in H. destruct H as (_ & _ & Hm & _).
  unfold cpu_online. now rewrite Hm.
Qed.

Lemma cpu_up_succeeds_hw (e : env) (c : nat) (s s' : state) :
  hw s' = hw s -> cpu_up_succeeds e c s' = cpu_up_succeeds e c s.
Proof.
  intros H. unfold cpu_up_succeeds. rewrite (cpu_online_hw _ _ _ H).
  apply hw_inv in H. destruct H as (Hn & Hp & _ & _).
  unfold cpu_present. now rewrite Hn, Hp.
Qed.

Lemma cpu_down_succeeds_hw (e : env) (c : nat) (s s' : state) :
  hw s' = hw s -> cpu_down_succeeds e c s' = cpu_down_succeeds e c s.
Proof.
  intros H. unfold cpu_down_succeeds. rewrite (cpu_online_hw _ _ _ H).
  apply hw_inv in H. destruct H as (Hn & _ & _ & _). now rewrite Hn.
Qed.

Lemma cpu_up_failed_hw (e : env) (c : nat) (s : state) :
  cpu_up_succeeds e c s = false -> hw (cpu_up e c s) = hw s.
Proof.
  intros H. unfold cpu_up.
  change (cpu_up_succeeds e c (trace (Kcpu_up c) s))
    with (cpu_up_succeeds e c s).
  rewrite H. reflexivity.
Qed.

Lemma cpu_down_failed_hw (e : env) (c : nat) (s : state) :
  cpu_down_succeeds e c s = false -> hw (cpu_down e c s) = hw s.
Proof.
  intros H. unfold cpu_down.
  change (cpu_down_succeeds e c (trace (Kcpu_down c) s))
    with (cpu_down_succeeds e c s).
  rewrite H. reflexivity.
Qed.

Section FoldInvariant.
Variables (A B : Type) (R : A -> A -> Prop) (f : A -> B -> A).
Hypothesis R_refl : forall a, R a a.
Hypothesis R_trans : forall a b c, R a b -> R b c -> R a c.
Hypothesis R_step : forall a b, R a (f a b).

Lemma fold_left_related (l : list B) (a : A) : R a (fold_left f l a).
Proof.
  revert a. induction l as [|b l IH]; intros a; simpl.
  - apply R_refl.
  - eapply R_trans; [apply R_step|apply IH].
Qed.
End FoldInvariant.

Lemma loop_frame_refl (s : state) : loop_frame s s.
Proof. split; [apply same_config_refl|reflexivity]. Qed.

Lemma loop_frame_trans (s1 s2 s3 : state) :
  loop_frame s1 s2 -> loop_frame s2 s3 -> loop_frame s1 s3.
Proof.
  intros [A1 A2] [B1 B2]. split.
  - eapply same_config_trans; eassumption.
  - congruence.
Qed.

Lemma online_cpu_frame (e : env) (s : state) (c : nat) :
  loop_frame s (online_cpu e s c).
Proof.
  unfold online_cpu. destruct (_ && _); [|apply loop_frame_refl].
  apply cpu_up_config.
Qed.

Lemma suspend_cpu_frame (e : env) (s : state) (c : nat) :
  loop_frame s (suspend_cpu e s c).
Proof.
  unfold suspend_cpu. destruct (_ && _); [|apply loop_frame_refl].
  apply cpu_down_config.
Qed.

Lemma online_loop_frame (e : env) (l : list nat) (s : state) :
  loop_frame s (fold_left (online_cpu e) l s).
Proof.
  apply fold_left_related.
  - apply loop_frame_refl.
  - apply loop_frame_trans.
  - apply online_cpu_frame.
Qed.

Lemma suspend_loop_frame (e : env) (l : list nat) (s : state) :
  loop_frame s (fold_left (suspend_cpu e) l s).
Proof.
  apply fold_left_related.
  - apply loop_frame_refl.
  - apply loop_frame_trans.
  - apply suspend_cpu_frame.
Qed.

(** ** CPU 0 stays online *)

Lemma spares_cpu0_refl (s : state) : spares_cpu0 s s.
Proof.
  split; [trivial|]. exists []. split; [now rewrite app_nil_r|intros []].
Qed.

Lemma spares_cpu0_trans (s1 s2 s3 : state) :
  spares_cpu0 s1 s2 -> spares_cpu0 s2 s3 -> spares_cpu0 s1 s3.
Proof.
  intros [A (k1 & E1 & N1)] [B (k2 & E2 & N2)]. split; [auto|].
  exists (k1 ++ k2). split.
  - now rewrite E2, E1, app_assoc.
  - intros H. apply in_app_or in H. tauto.
Qed.

(** A step that keeps the online mask and logs one call other than
    [cpu_down(0)]. *)
Lemma spares_cpu0_call (k : kcall) (s s' : state) :
  cpu_online_mask s' = cpu_online_mask s ->
  klog s' = klog s ++ [k] -> k <> Kcpu_down 0 ->
  spares_cpu0 s s'.
Proof.
  intros Hm Hk Hne. split.
  - unfold cpu_online. now rewrite Hm.
  - exists [k]. split; [exact Hk|]. intros [H|[]]. contradiction.
Qed.

Lemma cpu_up_spares_cpu0 (e : env) (c : nat) (s : state) :
  spares_cpu0 s (cpu_up e c s).
Proof.
  split.
  - intros H. rewrite cpu_online_cpu_up, H. apply orb_true_r.
  - exists [Kcpu_up c]. split; [apply cpu_up_klog|].
    intros [H|[]]. discriminate.
Qed.

Lemma cpu_down_spares_cpu0 (e : env) (c : nat) (s : state) :
  c <> 0%nat -> spares_cpu0 s (cpu_down e c s).
Proof.
  intros Hc. split.
  - intros H. rewrite cpu_online_cpu_down, H.
    destruct (Nat.eqb_spec 0 c) as [E|_]; [congruence|].
    now rewrite andb_false_r.
  - exists [Kcpu_down c]. split; [apply cpu_down_klog|].
    intros [H|[]]. congruence.
Qed.

Lemma queue_delayed_work_spares_cpu0 (d : auto_var Z) (s : state) :
  spares_cpu0 s (queue_delayed_work d s).
Proof.
  apply (spares_cpu0_call (Kqueue_delayed_work d)).
  - apply queue_delayed_work_config.
  - apply queue_delayed_work_klog.
  - discriminate.
Qed.

Lemma cancel_delayed_work_sync_spares_cpu0 (s : state) :
  spares_cpu0 s (cancel_delayed_work_sync s).
Proof.
  apply (spares_cpu0_call Kcancel_delayed_work_sync);
    [reflexivity|reflexivity|discriminate].
Qed.

(** A step that touches neither the online mask nor the log. *)
Lemma spares_cpu0_silent (s s' : state) :
  cpu_online_mask s' = cpu_online_mask s -> klog s' = klog s ->
  spares_cpu0 s s'.
Proof.
  intros Hm Hk. split.
  - unfold cpu_online. now rewrite Hm.
  - exists []. split; [now rewrite app_nil_r|intros []].
Qed.

Lemma online_loop_spares_cpu0 (e : env) (l : list nat) (s : state) :
  spares_cpu0 s (fold_left (online_cpu e) l s).
Proof.
  apply fold_left_related.
  - apply spares_cpu0_refl.
  - apply spares_cpu0_trans.
  - intros a c. unfold online_cpu.
    destruct (_ && _); [apply cpu_up_spares_cpu0|apply spares_cpu0_refl].
Qed.

Lemma suspend_loop_spares_cpu0 (e : env) (l : list nat) (s : state) :
  spares_cpu0 s (fold_left (suspend_cpu e) l s).
Proof.
  apply fold_left_related.
  - apply spares_cpu0_refl.
  - apply spares_cpu0_trans.
  - intros a c. unfold suspend_cpu.
    destruct (Nat.eqb_spec c 0) as [->|Hc]; [apply spares_cpu0_refl|].
    destruct (_ && _); [|apply spares_cpu0_refl].
    now apply cpu_down_spares_cpu0.
Qed.

(** The slow CPU picked by the sampling loop is CPU 0 only when the loop
    picked nothing. *)
Lemma asmp_work_fn_spares_cpu0 (e : env) (s : state) :
  spares_cpu0 s (asmp_work_fn e s).
Proof.
  unfold asmp_work_fn.
  destruct (asmp_enabled s); [|apply queue_delayed_work_spares_cpu0].
  destruct (asmp_sample e s) as [[slow_cpu slow_rate] fast_rate].
  eapply spares_cpu0_trans; [|apply queue_delayed_work_spares_cpu0].
  destruct (_ <? slow_rate).
  - destruct (_ && _); [apply cpu_up_spares_cpu0|apply spares_cpu0_refl].
  - destruct (Nat.eqb_spec slow_cpu 0) as [->|Hc]; [apply spares_cpu0_refl|].
    cbn [negb andb].
    destruct (_ <? _); [|apply spares_cpu0_refl].
    destruct (_ && _); [|apply spares_cpu0_refl].
    now apply cpu_down_spares_cpu0.
Qed.

Lemma asmp_step_spares_cpu0 (s : state) (o : asmp_op) :
  spares_cpu0 s (asmp_step s o).
Proof.
  destruct o as [e|e|e|e val|a buf count]; cbn [asmp_step].
  - unfold process_one_work. destruct (asmp_work s); [|apply spares_cpu0_refl].
    eapply spares_cpu0_trans; [|apply asmp_work_fn_spares_cpu0].
    now apply spares_cpu0_silent.
  - unfold asmp_early_suspend.
    destruct (asmp_enabled s); [|apply spares_cpu0_refl]. cbn [negb].
    eapply spares_cpu0_trans;
      [apply suspend_loop_spares_cpu0
      |apply cancel_delayed_work_sync_spares_cpu0].
  - unfold asmp_late_resume.
    destruct (asmp_enabled s); [|apply spares_cpu0_refl]. cbn [negb].
    eapply spares_cpu0_trans;
      [apply online_loop_spares_cpu0|apply queue_delayed_work_spares_cpu0].
  - unfold set_asmp_enabled.
    assert (Hp : spares_cpu0 s (fst (param_set_bool val s))).
    { unfold param_set_bool. destruct (strtobool val);
        [now apply spares_cpu0_silent|apply spares_cpu0_refl]. }
    destruct (param_set_bool val s) as [s1 ret]. cbn [fst] in Hp.
    eapply spares_cpu0_trans; [exact Hp|].
    destruct (asmp_enabled s1); cbn [fst].
    + apply queue_delayed_work_spares_cpu0.
    + eapply spares_cpu0_trans;
        [apply cancel_delayed_work_sync_spares_cpu0
        |apply online_loop_spares_cpu0].
  - unfold store_one. destruct (sscanf_u buf);
      [now apply spares_cpu0_silent|apply spares_cpu0_refl].
Qed.

(** C7: no operation of the controller takes CPU 0 offline.  Over any
    sequence of ticks, suspends, resumes, enable writes and sysfs stores,
    [cpu_down] is never called on CPU 0 (the tick only targets a non-zero
    [slow_cpu], the suspend loop skips CPU 0), so a CPU 0 that is online
    stays online. *)
Theorem asmp_run_never_offlines_cpu0 (ops : list asmp_op) (s : state) :
  cpu_online 0 s = true ->
  cpu_online 0 (asmp_run ops s) = true
  /\ exists calls,
       klog (asmp_run ops s) = klog s ++ calls /\ ~ In (Kcpu_down 0) calls.
Proof.
  intros H0.
  assert (H : spares_cpu0 s (asmp_run ops s)).
  { unfold asmp_run. apply fold_left_related.
    - apply spares_cpu0_refl.
    - apply spares_cpu0_trans.
    - apply asmp_step_spares_cpu0. }
  destruct H as [A B]. split; [now apply A|exact B].
Qed.

Lemma asmp_run_never_offlines_cpu0_witness :
  let e := sampled 1000 (fun _ => 100) in
  let s := asmp_init e (machine 4 15 (asmp_param_init 4)) in
  let ops := [Work e; Work e; EarlySuspend e; LateResume e;
              Store attr_min_cpus "0" 2; Work e; SetEnabled e "0"] in
  cpu_online 0 (asmp_run ops s) = true
  /\ exists calls,
       klog (asmp_run ops s) = klog s ++ calls /\ ~ In (Kcpu_down 0) calls.
Proof.
  intros e s ops. apply (asmp_run_never_offlines_cpu0 ops s). reflexivity.
Defined.

(** ** How many CPUs the loops leave online *)

Lemma offline_in_cons (c : nat) (l : list nat) (s : state) :
  offline_in (c :: l) s
  = (if cpu_online c s then 0 else 1) + offline_in l s.
Proof.
  unfold offline_in. cbn [filter].
  destruct (cpu_online c s); cbn [negb length]; lia.
Qed.

Lemma secondary_online_in_cons (c : nat) (l : list nat) (s : state) :
  secondary_online_in (c :: l) s
  = (if secondary c && cpu_online c s then 1 else 0)
    + secondary_online_in l s.
Proof.
  unfold secondary_online_in. cbn [filter].
  destruct (secondary c && cpu_online c s); cbn [length]; lia.
Qed.

Lemma offline_in_nonneg (l : list nat) (s : state) : 0 <= offline_in l s.
Proof. unfold offline_in. lia. Qed.

Lemma secondary_online_in_nonneg (l : list nat) (s : state) :
  0 <= secondary_online_in l s.
Proof. unfold secondary_online_in. lia. Qed.

(** Bringing up or taking down a CPU outside [l] does not change the
    counts over [l]. *)
Lemma offline_in_cpu_up (e : env) (c : nat) (l : list nat) (s : state) :
  ~ In c l -> offline_in l (cpu_up e c s) = offline_in l s.
Proof.
  intros Hc. unfold offline_in. f_equal. f_equal.
  apply filter_ext_in. intros x Hx. rewrite cpu_online_cpu_up.
  destruct (Nat.eqb_spec x c) as [->|_]; [contradiction|].
  now rewrite andb_false_r.
Qed.

Lemma secondary_online_in_cpu_down (e : env) (c : nat) (l : list nat)
      (s : state) :
  ~ In c l ->
  secondary_online_in l (cpu_down e c s) = secondary_online_in l s.
Proof.
  intros Hc. unfold secondary_online_in. f_equal. f_equal.
  apply filter_ext_in. intros x Hx. rewrite cpu_online_cpu_down.
  destruct (Nat.eqb_spec x c) as [->|_]; [contradiction|].
  now rewrite andb_false_r.
Qed.

(** The loop of resume and disable, when [cpu_up] does not fail: it stops
    at [max_cpus] or when [l] has no offline CPU left, and does nothing
    when [max_cpus] is already reached or exceeded. *)
Lemma online_loop_count (e : env) (l : list nat) (s : state) :
  NoDup l ->
  (forall c, In c l -> (c < nr_cpu_ids s)%nat /\ cpu_present c s = true) ->
  (forall c, cpu_up_ok e c = true) ->
  num_online_cpus (fold_left (online_cpu e) l s)
  = Z.max (num_online_cpus s)
          (Z.min (max_cpus (asmp_param s)) (num_online_cpus s + offline_in l s)).
Proof.
  intros Hnd Hl Hok. revert s Hl.
  induction l as [|c l IH]; intros s Hl.
  - cbn. unfold offline_in. cbn. lia.
  - inversion Hnd as [|? ? Hc Hnd']; subst.
    cbn [fold_left]. rewrite offline_in_cons.
    pose proof (offline_in_nonneg l s) as Hoff.
    destruct (Hl c (or_introl eq_refl)) as [Hlt Hpres].
    destruct (online_cpu_frame e s c) as [(Fn & Fp & _ & Fa) _].
    rewrite (IH Hnd'); clear IH.
    2:{ intros x Hx. destruct (Hl x (or_intror Hx)) as [A B].
        unfold cpu_present in *. rewrite Fn, Fp. auto. }
    rewrite Fa. unfold online_cpu.
    destruct (cpu_online c s) eqn:Hon; cbn [negb andb]; [lia|].
    destruct (Z.ltb_spec (num_online_cpus s) (max_cpus (asmp_param s)));
      [|lia].
    rewrite num_online_cpu_up, offline_in_cpu_up by exact Hc.
    assert (Hs : cpu_up_succeeds e c s = true).
    { unfold cpu_up_succeeds. rewrite Hpres, Hon, Hok.
      apply Nat.ltb_lt in Hlt. now rewrite Hlt. }
    rewrite Hs. lia.
Qed.

(** The loop of suspend, when [cpu_down] does not fail: it takes
    secondary CPUs of [l] offline until [min_cpus] CPUs are left. *)
Lemma suspend_loop_count (e : env) (l : list nat) (s : state) :
  NoDup l ->
  (forall c, In c l -> (c < nr_cpu_ids s)%nat) ->
  (forall c, cpu_down_ok e c = true) ->
  num_online_cpus (fold_left (suspend_cpu e) l s)
  = Z.min (num_online_cpus s)
          (Z.max (min_cpus (asmp_param s))
                 (num_online_cpus s - secondary_online_in l s)).
Proof.
  intros Hnd Hl Hok. revert s Hl.
  induction l as [|c l IH]; intros s Hl.
  - cbn. unfold secondary_online_in. cbn. lia.
  - inversion Hnd as [|? ? Hc Hnd']; subst.
    cbn [fold_left]. rewrite secondary_online_in_cons.
    pose proof (secondary_online_in_nonneg l s) as Hsec.
    pose proof (Hl c (or_introl eq_refl)) as Hlt.
    destruct (suspend_cpu_frame e s c) as [(Fn & _ & _ & Fa) _].
    rewrite (IH Hnd'); clear IH.
    2:{ intros x Hx. rewrite Fn. apply Hl. now right. }
    rewrite Fa. unfold suspend_cpu. fold (secondary c).
    destruct (secondary c && cpu_online c s) eqn:Hon; cbn [andb]; [|lia].
    destruct (Z.ltb_spec (min_cpus (asmp_param s)) (num_online_cpus s));
      [|lia].
    rewrite num_online_cpu_down, secondary_online_in_cpu_down by exact Hc.
    assert (Hs : cpu_down_succeeds e c s = true).
    { unfold cpu_down_succeeds. apply andb_true_iff in Hon.
      destruct Hon as [_ ->]. rewrite Hok.
      apply Nat.ltb_lt in Hlt. now rewrite Hlt. }
    rewrite Hs. lia.
Qed.

Lemma present_offline_count (s : state) :
  online_present s ->
  num_online_cpus s + offline_in (for_each_present_cpu s) s
  = num_present_cpus s.
Proof.
  intros Hsub.
  unfold num_online_cpus, num_present_cpus, cpumask_weight, offline_in,
    for_each_present_cpu, for_each_cpu.
  rewrite <- Nat2Z.inj_add. f_equal.
  apply (filter_length_split
           (fun c => cpumask_test_cpu c (cpu_present_mask s))
           (fun c => cpumask_test_cpu c (cpu_online_mask s))).
  intros x Hx. apply in_seq in Hx. apply Hsub. lia.
Qed.

Lemma filter_filter_andb (A : Type) (f g : A -> bool) (l : list A) :
  filter f (filter g l) = filter (fun x => g x && f x) l.
Proof.
  induction l as [|x l IH]; [reflexivity|]. cbn [filter].
  destruct (g x); cbn [andb filter]; [destruct (f x)|]; now rewrite IH.
Qed.

Lemma present_secondary_count (s : state) :
  (0 < nr_cpu_ids s)%nat -> cpu_online 0 s = true -> online_present s ->
  num_online_cpus s = 1 + secondary_online_in (for_each_present_cpu s) s.
Proof.
  intros Hn H0 Hsub.
  unfold num_online_cpus, cpumask_weight, secondary_online_in.
  rewrite (for_each_cpu_head _ _ Hn H0). cbn [length].
  rewrite Nat2Z.inj_succ. unfold Z.succ. rewrite Z.add_comm. f_equal.
  f_equal. f_equal.
  unfold for_each_present_cpu, for_each_cpu. rewrite !filter_filter_andb.
  apply filter_ext_in. intros x Hx. apply in_seq in Hx.
  fold (secondary x). fold (cpu_online x s).
  change (cpumask_test_cpu x (cpu_present_mask s)) with (cpu_present x s).
  destruct (cpu_online x s) eqn:Hon.
  - rewrite (Hsub x ltac:(lia) Hon). cbn. now rewrite andb_true_r.
  - now rewrite !andb_false_r.
Qed.

(** ** Disable *)

(** C8 as first stated fails: four CPUs online, [max_cpus] lowered to 2
    through sysfs, then the controller is disabled.  The disable path only
    brings CPUs up, so four CPUs stay online, not min(2, 4) = 2. *)
Lemma set_asmp_enabled_off_above_max_cpus :
  let e := sampled 1000 (fun _ => 950) in
  let s := fst (store_one attr_max_cpus "2" 2
                  (asmp_init e (machine 4 15 (asmp_param_init 4)))) in
  let s' := fst (set_asmp_enabled e "0" s) in
  asmp_enabled s' = false
  /\ num_online_cpus s' = 4
  /\ Z.min (max_cpus (asmp_param s')) (num_present_cpus s') = 2.
Proof. vm_compute. repeat split. Qed.

(** C8 (amended): after a write that clears [asmp_enabled], with [cpu_up]
    succeeding, the work is cancelled and the online count is the larger of
    what it was and min([max_cpus], present): the count is raised to
    min([max_cpus], present) when it was below it and is left alone when it
    was already above [max_cpus].  In particular it equals
    min([max_cpus], present) whenever it did not exceed [max_cpus]
    before. *)
Theorem set_asmp_enabled_off_online_count (e : env) (val : string) (s : state) :
  strtobool val = Some false ->
  (forall c, cpu_up_ok e c = true) ->
  online_present s ->
  let s' := fst (set_asmp_enabled e val s) in
  asmp_enabled s' = false
  /\ asmp_work s' = None
  /\ num_online_cpus s'
     = Z.max (num_online_cpus s)
             (Z.min (max_cpus (asmp_param s)) (num_present_cpus s))
  /\ (num_online_cpus s <= max_cpus (asmp_param s) ->
      num_online_cpus s'
      = Z.min (max_cpus (asmp_param s')) (num_present_cpus s')).
Proof.
  intros Hval Hok Hsub. unfold set_asmp_enabled, param_set_bool.
  rewrite Hval. cbn [asmp_enabled set_enabled_flag]. cbv zeta. cbn [fst].
  set (s1 := cancel_delayed_work_sync (set_enabled_flag false s)).
  assert (Hhw : hw s1 = hw s) by reflexivity.
  assert (Hpl : for_each_present_cpu s1 = for_each_present_cpu s)
    by reflexivity.
  destruct (online_loop_frame e (for_each_present_cpu s1) s1)
    as [(Fn & Fp & Fe & Fa) Fw].
  pose proof (present_offline_count s Hsub) as Htot.
  assert (Hcount :
    num_online_cpus (fold_left (online_cpu e) (for_each_present_cpu s1) s1)
    = Z.max (num_online_cpus s)
            (Z.min (max_cpus (asmp_param s)) (num_present_cpus s))).
  { rewrite online_loop_count.
    - rewrite Hpl. change (offline_in (for_each_present_cpu s) s1)
        with (offline_in (for_each_present_cpu s) s).
      rewrite (num_online_hw _ _ Hhw).
      change (asmp_param s1) with (asmp_param s). rewrite Htot. reflexivity.
    - apply for_each_cpu_NoDup.
    - intros c Hc. apply for_each_cpu_In in Hc. exact Hc.
    - exact Hok. }
  repeat split.
  - rewrite Fe. reflexivity.
  - rewrite Fw. reflexivity.
  - exact Hcount.
  - intros Hle. rewrite Hcount.
    assert (Hpres :
      num_present_cpus
        (fold_left (online_cpu e) (for_each_present_cpu s1) s1)
      = num_present_cpus s)
      by (unfold num_present_cpus; rewrite Fn, Fp; reflexivity).
    rewrite Hpres, Fa. change (asmp_param s1) with (asmp_param s).
    pose proof (offline_in_nonneg (for_each_present_cpu s) s). lia.
Qed.

Lemma set_asmp_enabled_off_online_count_witness :
  let e := sampled 1000 (fun _ => 950) in
  let s := machine 4 1 (set_max_cpus 3 (asmp_param_init 4)) in
  let s' := fst (set_asmp_enabled e "0" s) in
  asmp_enabled s' = false
  /\ asmp_work s' = None
  /\ num_online_cpus s'
     = Z.max (num_online_cpus s)
             (Z.min (max_cpus (asmp_param s)) (num_present_cpus s))
  /\ (num_online_cpus s <= max_cpus (asmp_param s) ->
      num_online_cpus s'
      = Z.min (max_cpus (asmp_param s')) (num_present_cpus s')).
Proof.
  intros e s. apply (set_asmp_enabled_off_online_count e "0" s).
  - reflexivity.
  - intros c. reflexivity.
  - intros c Hc _. unfold cpu_present, cpumask_test_cpu. simpl in *.
    apply Z.ones_spec_low. lia.
Defined.

(** ** Suspend *)

(** C2 as first stated fails: four CPUs online and [min_cpus = 2].  The
    suspend loop stops when two CPUs are left: CPUs 1 and 2 go offline, CPU
    3 stays online next to CPU 0. *)
Lemma asmp_early_suspend_respects_min_cpus :
  let e := sampled 1000 (fun _ => 950) in
  let s := asmp_init e (machine 4 15 (set_min_cpus 2 (asmp_param_init 4))) in
  let s' := asmp_early_suspend e s in
  for_each_online_cpu s' = [0; 3]%nat
  /\ num_online_cpus s' = 2
  /\ klog s' = klog s ++ [Kcpu_down 1; Kcpu_down 2; Kcancel_delayed_work_sync].
Proof. vm_compute. repeat split. Qed.

(** C2 (amended): suspend does not override the floor.  On a suspend
    signal while enabled, with CPU 0 online, every online CPU present and
    [cpu_down] succeeding, CPU 0 stays online, the work is cancelled, and
    the online count ends at min(count before, max([min_cpus], 1)).
    Exactly one CPU is left if and only if [min_cpus <= 1] or only one CPU
    was online before; in particular whenever [min_cpus <= 1]. *)
Theorem asmp_early_suspend_online_count (e : env) (s : state) :
  asmp_enabled s = true ->
  (0 < nr_cpu_ids s)%nat -> cpu_online 0 s = true -> online_present s ->
  (forall c, cpu_down_ok e c = true) ->
  let s' := asmp_early_suspend e s in
  cpu_online 0 s' = true
  /\ asmp_work s' = None
  /\ num_online_cpus s'
     = Z.min (num_online_cpus s) (Z.max (min_cpus (asmp_param s)) 1)
  /\ (min_cpus (asmp_param s) <= 1 -> num_online_cpus s' = 1)
  /\ (num_online_cpus s' = 1
      <-> min_cpus (asmp_param s) <= 1 \/ num_online_cpus s = 1).
Proof.
  intros Hen Hn H0 Hsub Hok. cbv zeta.
  pose proof (asmp_step_spares_cpu0 s (EarlySuspend e)) as [Hcpu0 _].
  cbn [asmp_step] in Hcpu0.
  pose proof (present_secondary_count s Hn H0 Hsub) as Htot.
  pose proof (secondary_online_in_nonneg (for_each_present_cpu s) s) as Hsec.
  assert (Hcount :
    num_online_cpus (asmp_early_suspend e s)
    = Z.min (num_online_cpus s) (Z.max (min_cpus (asmp_param s)) 1)).
  { unfold asmp_early_suspend. rewrite Hen. cbn [negb].
    set (s1 := fold_left (suspend_cpu e) (for_each_present_cpu s) s).
    change (num_online_cpus (cancel_delayed_work_sync s1))
      with (num_online_cpus s1).
    subst s1. rewrite suspend_loop_count.
    - lia.
    - apply for_each_cpu_NoDup.
    - intros c Hc. apply for_each_cpu_In in Hc. apply Hc.
    - exact Hok. }
  split; [now apply Hcpu0|].
  split; [unfold asmp_early_suspend; rewrite Hen; reflexivity|].
  split; [exact Hcount|].
  rewrite Hcount. split; [intros Hmin; lia|]. split; intros H; lia.
Qed.

Lemma asmp_early_suspend_online_count_witness :
  let e := sampled 1000 (fun _ => 950) in
  let s := asmp_init e (machine 4 15 (asmp_param_init 4)) in
  let s' := asmp_early_suspend e s in
  cpu_online 0 s' = true
  /\ asmp_work s' = None
  /\ num_online_cpus s'
     = Z.min (num_online_cpus s) (Z.max (min_cpus (asmp_param s)) 1)
  /\ (min_cpus (asmp_param s) <= 1 -> num_online_cpus s' = 1)
  /\ (num_online_cpus s' = 1
      <-> min_cpus (asmp_param s) <= 1 \/ num_online_cpus s = 1).
Proof.
  intros e s. apply (asmp_early_suspend_online_count e s).
  - reflexivity.
  - simpl. lia.
  - reflexivity.
  - intros c Hc _. unfold cpu_present, cpumask_test_cpu. simpl in *.
    apply Z.ones_spec_low. lia.
  - intros c. reflexivity.
Defined.

(** ** Repeated resume and suspend *)

Lemma up_settled_hw (e : env) (s s' : state) (c : nat) :
  hw s' = hw s -> up_settled e s c -> up_settled e s' c.
Proof.
  intros H. unfold up_settled.
  rewrite (num_online_hw _ _ H), (cpu_up_succeeds_hw e c _ _ H).
  apply hw_inv in H. destruct H as (_ & _ & _ & ->). trivial.
Qed.

Lemma down_settled_hw (e : env) (s s' : state) (c : nat) :
  hw s' = hw s -> down_settled e s c -> down_settled e s' c.
Proof.
  intros H. unfold down_settled.
  rewrite (num_online_hw _ _ H), (cpu_down_succeeds_hw e c _ _ H).
  apply hw_inv in H. destruct H as (_ & _ & _ & ->). trivial.
Qed.

Lemma online_cpu_cases (e : env) (s : state) (c : nat) :
  (hw (online_cpu e s c) = hw s /\ up_settled e s c)
  \/ (cpu_up_succeeds e c s = true /\ online_cpu e s c = cpu_up e c s).
Proof.
  unfold online_cpu, up_settled.
  destruct (cpu_up_succeeds e c s) eqn:Hs.
  - destruct (negb (cpu_online c s) && _) eqn:Hg; [now right|].
    left. split; [reflexivity|].
    unfold cpu_up_succeeds in Hs.
    destruct (cpu_online c s); [now rewrite !andb_false_r in Hs|].
    cbn [negb andb] in Hg. now rewrite Hg.
  - left. split; [|apply andb_false_r].
    destruct (_ && _); [now apply cpu_up_failed_hw|reflexivity].
Qed.

Lemma suspend_cpu_cases (e : env) (s : state) (c : nat) :
  (hw (suspend_cpu e s c) = hw s /\ down_settled e s c)
  \/ (cpu_down_succeeds e c s = true /\ suspend_cpu e s c = cpu_down e c s).
Proof.
  unfold suspend_cpu, down_settled. fold (secondary c).
  destruct (cpu_down_succeeds e c s) eqn:Hs.
  - destruct (secondary c && cpu_online c s && _) eqn:Hg; [now right|].
    left. split; [reflexivity|].
    unfold cpu_down_succeeds in Hs.
    apply andb_true_iff in Hs. destruct Hs as [Hs _].
    apply andb_true_iff in Hs. destruct Hs as [_ Hon].
    rewrite Hon, andb_true_r in Hg. now rewrite Hg.
  - left. split; [|apply andb_false_r].
    destruct (_ && _); [now apply cpu_down_failed_hw|reflexivity].
Qed.

Lemma cpu_up_succeeds_after_cpu_up (e e' : env) (c c' : nat) (s : state) :
  cpu_up_succeeds e c s = false ->
  cpu_up_succeeds e c (cpu_up e' c' s) = false.
Proof.
  unfold cpu_up_succeeds. intros H.
  destruct (cpu_up_config e' c' s) as [(Fn & Fp & _) _].
  unfold cpu_present in *. rewrite Fn, Fp, cpu_online_cpu_up.
  destruct (cpu_online c s); [now rewrite orb_true_r, !andb_false_r|].
  rewrite orb_false_r. cbn [negb] in H. rewrite andb_true_r in H.
  destruct (_ && cpumask_test_cpu c _); [|reflexivity].
  cbn [andb] in *. rewrite H. apply andb_false_r.
Qed.

Lemma cpu_down_succeeds_after_cpu_down (e e' : env) (c c' : nat) (s : state) :
  cpu_down_succeeds e c s = false ->
  cpu_down_succeeds e c (cpu_down e' c' s) = false.
Proof.
  unfold cpu_down_succeeds. intros H.
  destruct (cpu_down_config e' c' s) as [(Fn & _) _].
  rewrite Fn, cpu_online_cpu_down.
  destruct (cpu_online c s); [|now rewrite !andb_false_r].
  rewrite andb_true_r in *.
  destruct (c <? nr_cpu_ids s)%nat; [|reflexivity].
  cbn [andb] in *. rewrite H. apply andb_false_r.
Qed.

Lemma up_settled_step (e : env) (s : state) (c c' : nat) :
  up_settled e s c -> up_settled e (online_cpu e s c') c.
Proof.
  intros H. destruct (online_cpu_cases e s c') as [[Hhw _]|[Hs ->]].
  - now apply (up_settled_hw e s).
  - unfold up_settled in *.
    destruct (cpu_up_config e c' s) as [(_ & _ & _ & Fa) _].
    rewrite num_online_cpu_up, Hs, Fa.
    apply andb_false_iff in H. apply andb_false_iff.
    destruct H as [H|H].
    + left. apply Z.ltb_ge in H. apply Z.ltb_ge. lia.
    + right. now apply cpu_up_succeeds_after_cpu_up.
Qed.

Lemma down_settled_step (e : env) (s : state) (c c' : nat) :
  down_settled e s c -> down_settled e (suspend_cpu e s c') c.
Proof.
  intros H. destruct (suspend_cpu_cases e s c') as [[Hhw _]|[Hs ->]].
  - now apply (down_settled_hw e s).
  - unfold down_settled in *.
    destruct (cpu_down_config e c' s) as [(_ & _ & _ & Fa) _].
    rewrite num_online_cpu_down, Hs, Fa.
    apply andb_false_iff in H. apply andb_false_iff.
    destruct H as [H|H].
    + left. apply andb_false_iff in H. apply andb_false_iff.
      destruct H as [H|H]; [now left|right].
      apply Z.ltb_ge in H. apply Z.ltb_ge. lia.
    + right. now apply cpu_down_succeeds_after_cpu_down.
Qed.

Lemma up_settled_self (e : env) (s : state) (c : nat) :
  up_settled e (online_cpu e s c) c.
Proof.
  destruct (online_cpu_cases e s c) as [[Hhw H]|[Hs ->]].
  - now apply (up_settled_hw e s).
  - unfold up_settled. apply andb_false_iff. right.
    unfold cpu_up_succeeds. rewrite cpu_online_cpu_up, Hs, Nat.eqb_refl.
    cbn. now rewrite andb_false_r.
Qed.

Lemma down_settled_self (e : env) (s : state) (c : nat) :
  down_settled e (suspend_cpu e s c) c.
Proof.
  destruct (suspend_cpu_cases e s c) as [[Hhw H]|[Hs ->]].
  - now apply (down_settled_hw e s).
  - unfold down_settled. apply andb_false_iff. right.
    unfold cpu_down_succeeds. rewrite cpu_online_cpu_down, Hs, Nat.eqb_refl.
    cbn. now rewrite andb_false_r.
Qed.

(** After the loop every CPU it visited is settled. *)
Lemma online_loop_settles (e : env) (l : list nat) (s : state) (c : nat) :
  In c l -> up_settled e (fold_left (online_cpu e) l s) c.
Proof.
  revert s. induction l as [|x l IH]; intros s Hc; [contradiction|].
  cbn [fold_left]. destruct Hc as [->|Hc]; [|now apply IH].
  apply (fold_left_related _ _ (fun a b => up_settled e a c -> up_settled e b c)).
  - auto.
  - auto.
  - intros a b. apply up_settled_step.
  - apply up_settled_self.
Qed.

Lemma suspend_loop_settles (e : env) (l : list nat) (s : state) (c : nat) :
  In c l -> down_settled e (fold_left (suspend_cpu e) l s) c.
Proof.
  revert s. induction l as [|x l IH]; intros s Hc; [contradiction|].
  cbn [fold_left]. destruct Hc as [->|Hc]; [|now apply IH].
  apply (fold_left_related _ _
           (fun a b => down_settled e a c -> down_settled e b c)).
  - auto.
  - auto.
  - intros a b. apply down_settled_step.
  - apply down_settled_self.
Qed.

(** Over settled CPUs the loop changes nothing but the call log. *)
Lemma online_loop_settled (e : env) (l : list nat) (s : state) :
  (forall c, In c l -> up_settled e s c) ->
  hw (fold_left (online_cpu e) l s) = hw s.
Proof.
  revert s. induction l as [|x l IH]; intros s H; [reflexivity|].
  cbn [fold_left].
  assert (Hx : hw (online_cpu e s x) = hw s).
  { destruct (online_cpu_cases e s x) as [[Hhw _]|[Hs _]]; [exact Hhw|].
    pose proof (H x (or_introl eq_refl)) as Hset. unfold up_settled in Hset.
    rewrite Hs, andb_true_r in Hset. unfold online_cpu.
    rewrite Hset, andb_false_r. reflexivity. }
  rewrite IH; [exact Hx|].
  intros c Hc. apply (up_settled_hw e s); [exact Hx|]. apply H. now right.
Qed.

Lemma suspend_loop_settled (e : env) (l : list nat) (s : state) :
  (forall c, In c l -> down_settled e s c) ->
  hw (fold_left (suspend_cpu e) l s) = hw s.
Proof.
  revert s. induction l as [|x l IH]; intros s H; [reflexivity|].
  cbn [fold_left].
  assert (Hx : hw (suspend_cpu e s x) = hw s).
  { destruct (suspend_cpu_cases e s x) as [[Hhw _]|[Hs _]]; [exact Hhw|].
    pose proof (H x (or_introl eq_refl)) as Hset. unfold down_settled in Hset.
    rewrite Hs, andb_true_r in Hset. unfold suspend_cpu.
    fold (secondary x).
    apply andb_false_iff in Hset. destruct Hset as [-> | ->];
      [reflexivity|now rewrite andb_false_r]. }
  rewrite IH; [exact Hx|].
  intros c Hc. apply (down_settled_hw e s); [exact Hx|]. apply H. now right.
Qed.

(** A platform that refuses at least what another refuses leaves settled
    what the other left settled. *)
Lemma up_settled_weaker (e e' : env) (s : state) (c : nat) :
  (forall x, cpu_up_ok e' x = true -> cpu_up_ok e x = true) ->
  up_settled e s c -> up_settled e' s c.
Proof.
  intros Hle. unfold up_settled, cpu_up_succeeds.
  destruct (cpu_up_ok e' c) eqn:Hok'; [|now rewrite !andb_false_r].
  now rewrite (Hle c Hok').
Qed.

Lemma down_settled_weaker (e e' : env) (s : state) (c : nat) :
  (forall x, cpu_down_ok e' x = true -> cpu_down_ok e x = true) ->
  down_settled e s c -> down_settled e' s c.
Proof.
  intros Hle. unfold down_settled, cpu_down_succeeds.
  destruct (cpu_down_ok e' c) eqn:Hok'; [|now rewrite !andb_false_r].
  now rewrite (Hle c Hok').
Qed.

Lemma hw_queue_delayed_work (d : auto_var Z) (s : state) :
  hw (queue_delayed_work d s) = hw s.
Proof. unfold queue_delayed_work. cbn. destruct (asmp_work s); reflexivity. Qed.

Lemma hw_same_config (s s' : state) :
  hw s' = hw s -> for_each_present_cpu s' = for_each_present_cpu s.
Proof.
  intros H. apply hw_inv in H. destruct H as (Hn & Hp & _).
  unfold for_each_present_cpu. now rewrite Hn, Hp.
Qed.

Lemma loop_frame_hw (s s' : state) :
  loop_frame s s' -> cpu_online_mask s' = cpu_online_mask s -> hw s' = hw s.
Proof.
  intros [(Fn & Fp & _ & Fa) _] Hm. unfold hw. now rewrite Fn, Fp, Fa, Hm.
Qed.

Lemma asmp_late_resume_twice (e e' : env) (s : state) :
  (forall c, cpu_up_ok e' c = true -> cpu_up_ok e c = true) ->
  observable (asmp_late_resume e' (asmp_late_resume e s))
  = observable (asmp_late_resume e s).
Proof.
  intros Hle. unfold asmp_late_resume at 2 3.
  destruct (asmp_enabled s) eqn:Hen; cbn [negb].
  2:{ unfold asmp_late_resume. now rewrite Hen. }
  set (l := for_each_present_cpu s).
  set (s0 := fold_left (online_cpu e) l s).
  set (d := Assigned (msecs_to_jiffies e (delay (asmp_param s0)))).
  set (s1 := queue_delayed_work d s0).
  destruct (online_loop_frame e l s) as [(Fn & Fp & Fe & Fa) Fw].
  fold s0 in Fn, Fp, Fe, Fa, Fw.
  assert (H1 : hw s1 = hw s0) by apply hw_queue_delayed_work.
  destruct (queue_delayed_work_config d s0) as [(_ & _ & Qe & _) _].
  fold s1 in Qe.
  assert (Hl : for_each_present_cpu s1 = l).
  { rewrite (hw_same_config _ _ H1). unfold for_each_present_cpu, l.
    now rewrite Fn, Fp. }
  assert (Hw : exists w, asmp_work s1 = Some w).
  { unfold s1. rewrite queue_delayed_work_pending.
    destruct (asmp_work s0); eauto. }
  destruct Hw as [w Hw].
  unfold asmp_late_resume. rewrite Qe, Fe, Hen. cbn [negb]. rewrite Hl.
  set (s2 := fold_left (online_cpu e') l s1).
  assert (H2 : hw s2 = hw s1).
  { apply online_loop_settled. intros c Hc.
    apply (up_settled_weaker e); [exact Hle|].
    apply (up_settled_hw e s0); [exact H1|].
    now apply online_loop_settles. }
  destruct (online_loop_frame e' l s1) as [(_ & _ & Ge & _) Gw].
  fold s2 in Ge, Gw.
  unfold observable. rewrite hw_queue_delayed_work, H2.
  rewrite queue_delayed_work_pending, Gw, Hw.
  destruct (queue_delayed_work_config
              (Assigned (msecs_to_jiffies e' (delay (asmp_param s2)))) s2)
    as [(_ & _ & Re & _) _].
  rewrite Re, Ge. reflexivity.
Qed.

Lemma asmp_early_suspend_twice (e e' : env) (s : state) :
  (forall c, cpu_down_ok e' c = true -> cpu_down_ok e c = true) ->
  observable (asmp_early_suspend e' (asmp_early_suspend e s))
  = observable (asmp_early_suspend e s).
Proof.
  intros Hle. unfold asmp_early_suspend at 2 3.
  destruct (asmp_enabled s) eqn:Hen; cbn [negb].
  2:{ unfold asmp_early_suspend. now rewrite Hen. }
  set (l := for_each_present_cpu s).
  set (s0 := fold_left (suspend_cpu e) l s).
  set (s1 := cancel_delayed_work_sync s0).
  destruct (suspend_loop_frame e l s) as [(Fn & Fp & Fe & Fa) Fw].
  fold s0 in Fn, Fp, Fe, Fa, Fw.
  assert (H1 : hw s1 = hw s0) by reflexivity.
  assert (Hl : for_each_present_cpu s1 = l).
  { rewrite (hw_same_config _ _ H1). unfold for_each_present_cpu, l.
    now rewrite Fn, Fp. }
  unfold asmp_early_suspend.
  change (asmp_enabled s1) with (asmp_enabled s0).
  rewrite Fe, Hen. cbn [negb]. rewrite Hl.
  set (s2 := fold_left (suspend_cpu e') l s1).
  assert (H2 : hw s2 = hw s1).
  { apply suspend_loop_settled. intros c Hc.
    apply (down_settled_weaker e); [exact Hle|].
    apply (down_settled_hw e s0); [exact H1|].
    now apply suspend_loop_settles. }
  destruct (suspend_loop_frame e' l s1) as [(_ & _ & Ge & _) _].
  fold s2 in Ge.
  unfold observable.
  change (hw (cancel_delayed_work_sync s2)) with (hw s2).
  change (asmp_enabled (cancel_delayed_work_sync s2)) with (asmp_enabled s2).
  rewrite H2, Ge. reflexivity.
Qed.

(** C9 as first stated fails, in two ways.  The driver keeps no record of
    being suspended or resumed, so a resume signal that arrives while the
    loop is running is not a no-op: after a first resume and an idle tick
    that took CPU 3 offline, a second resume brings it back.  And two
    resume signals in a row differ from one when [cpu_up] is refused for
    CPU 1 on the first signal and let through on the second. *)
Lemma asmp_late_resume_not_a_noop :
  (let e := sampled 1000 (fun _ => 100) in
   let s0 := asmp_init e (machine 4 15 (asmp_param_init 4)) in
   let s1 := asmp_late_resume e s0 in
   let s2 := process_one_work e s1 in
   let s3 := asmp_late_resume e s2 in
   observable s1 = observable s0
   /\ cpu_online_mask s2 = 7
   /\ cpu_online_mask s3 = 15
   /\ observable s3 <> observable s2)
  /\ (let e2 := sampled 1000 (fun _ => 950) in
      let e1 := {| msecs_to_jiffies := msecs_to_jiffies e2;
                   cpufreq_quick_get_max := cpufreq_quick_get_max e2;
                   cpufreq_quick_get := cpufreq_quick_get e2;
                   cpu_up_ok := fun c => negb (c =? 1)%nat;
                   cpu_down_ok := cpu_down_ok e2 |} in
      let s := asmp_early_suspend e2
                 (asmp_init e2 (machine 4 15 (asmp_param_init 4))) in
      cpu_online_mask (asmp_late_resume e1 s) = 13
      /\ cpu_online_mask (asmp_late_resume e2 (asmp_late_resume e1 s)) = 15
      /\ observable (asmp_late_resume e2 (asmp_late_resume e1 s))
         <> observable (asmp_late_resume e1 s)).
Proof.
  split; vm_compute; repeat split; discriminate.
Qed.

(** C9 (amended): resume and suspend are idempotent back to back on a
    platform that answers consistently.  A second resume (suspend) signal
    right after the first leaves the online CPUs, the parameters, the
    enable flag and the pending state of the work as the first left them,
    provided no hotplug call succeeds on the second signal that was
    refused on the first (in particular when nothing was refused on the
    first, or when the platform answers the same both times). *)
Theorem asmp_resume_suspend_idempotent (e e' : env) (s : state) :
  (forall c, cpu_up_ok e' c = true -> cpu_up_ok e c = true) ->
  (forall c, cpu_down_ok e' c = true -> cpu_down_ok e c = true) ->
  observable (asmp_late_resume e' (asmp_late_resume e s))
  = observable (asmp_late_resume e s)
  /\ observable (asmp_early_suspend e' (asmp_early_suspend e s))
     = observable (asmp_early_suspend e s).
Proof.
  intros Hup Hdown. split.
  - now apply asmp_late_resume_twice.
  - now apply asmp_early_suspend_twice.
Qed.

Lemma asmp_resume_suspend_idempotent_witness :
  let e := sampled 1000 (fun _ => 950) in
  let s := asmp_early_suspend e
             (asmp_init e (machine 4 15 (set_max_cpus 3 (asmp_param_init 4)))) in
  (observable (asmp_late_resume e (asmp_late_resume e s))
   = observable (asmp_late_resume e s)
   /\ observable (asmp_early_suspend e (asmp_early_suspend e s))
      = observable (asmp_early_suspend e s))
  /\ cpu_online_mask (asmp_late_resume e s) = 7
  /\ asmp_work (asmp_late_resume e s) = Some (Assigned 10).
Proof.
  intros e s. split.
  - apply (asmp_resume_suspend_idempotent e e s); intros c H; exact H.
  - split; reflexivity.
Defined.

(** ** Scenarios *)

(** Scenario A: four present CPUs, one online, every online CPU at 950 of
    1000 with the default parameters: one more CPU comes online. *)
Example scenario_scale_up :
  let e := sampled 1000 (fun _ => 950) in
  let s := asmp_run [Work e] (asmp_init e (machine 4 1 (asmp_param_init 4))) in
  for_each_online_cpu s = [0; 1]%nat.
Proof. reflexivity. Qed.

(** Scenario C: at [min_cpus] the scale-down condition never takes a CPU
    offline. *)
Example scenario_floor :
  let e := sampled 1000 (fun _ => 100) in
  let p := set_min_cpus 2 (asmp_param_init 4) in
  let s := asmp_run [Work e; Work e; Work e] (asmp_init e (machine 4 3 p)) in
  for_each_online_cpu s = [0; 1]%nat.
Proof. reflexivity. Qed.

(** Scenario D: suspend with four CPUs online and the default
    [min_cpus = 1] leaves CPU 0 alone online; the resume that follows
    brings CPUs back up to [max_cpus]. *)
Example scenario_suspend_resume :
  let e := sampled 1000 (fun _ => 950) in
  let p := set_max_cpus 3 (asmp_param_init 4) in
  let s := asmp_init e (machine 4 15 p) in
  for_each_online_cpu (asmp_run [EarlySuspend e] s) = [0]%nat
  /\ for_each_online_cpu (asmp_run [EarlySuspend e; LateResume e] s)
     = [0; 1; 2]%nat.
Proof. split; reflexivity. Qed.

(** The sampling loop never counts the first secondary CPU it visits in
    [fast_rate]: CPU 1 at 800 is above the down limit of 600, yet it is
    taken offline because [fast_rate] is still CPU 0's 100. *)
Example scenario_first_secondary_not_in_fast_rate :
  let e := sampled 1000 (fun c => match c with O => 100 | _ => 800 end) in
  let s := asmp_init e (machine 2 3 (asmp_param_init 2)) in
  asmp_sample e s = (1%nat, 100, 100)
  /\ for_each_online_cpu (asmp_run [Work e] s) = [0]%nat.
Proof. split; reflexivity. Qed.

(** * Further properties of the driver *)

(** ** The tick, call by call *)

(** An enabled tick is its decision followed by the re-queue. *)
Lemma asmp_work_fn_enabled (e : env) (s : state) :
  asmp_enabled s = true ->
  asmp_work_fn e s
  = queue_delayed_work
      (Assigned (msecs_to_jiffies e (delay (asmp_param s))))
      (apply_action e (asmp_decision e s) s).
Proof.
  intros Hen. unfold asmp_work_fn, asmp_decision, up_rate_of, down_rate_of.
  rewrite Hen. change (u32 (0 + 1)) with 1.
  destruct (asmp_sample e s) as [[slow_cpu slow_rate] fast_rate].
  cbn [slow_rate_of fast_rate_of slow_cpu_of fst snd]. fold (secondary slow_cpu).
  destruct (_ <? slow_rate).
  - destruct (_ && _); reflexivity.
  - destruct (secondary slow_cpu && _); [|reflexivity].
    destruct (_ && _); reflexivity.
Qed.

Lemma apply_action_klog (e : env) (a : hotplug_action) (s : state) :
  klog (apply_action e a s) = klog s ++ action_calls a.
Proof.
  destruct a; cbn [apply_action action_calls].
  - now rewrite app_nil_r.
  - apply cpu_up_klog.
  - apply cpu_down_klog.
Qed.

Lemma asmp_work_fn_klog (e : env) (s : state) :
  klog (asmp_work_fn e s)
  = klog s
    ++ (if asmp_enabled s
        then action_calls (asmp_decision e s)
             ++ [Kqueue_delayed_work
                   (Assigned (msecs_to_jiffies e (delay (asmp_param s))))]
        else [Kqueue_delayed_work Indeterminate]).
Proof.
  destruct (asmp_enabled s) eqn:Hen.
  - rewrite (asmp_work_fn_enabled e s Hen), queue_delayed_work_klog,
      apply_action_klog. now rewrite app_assoc.
  - unfold asmp_work_fn. rewrite Hen. apply queue_delayed_work_klog.
Qed.

Lemma asmp_decision_down_secondary (e : env) (s : state) (c : nat) :
  asmp_decision e s = Act_down c -> c <> 0%nat.
Proof.
  unfold asmp_decision.
  destruct (_ <? _); [destruct (_ && _); discriminate|].
  destruct (secondary _) eqn:Hsec; [|discriminate]. cbn [andb].
  destruct (_ <? _); [|discriminate].
  destruct (_ && _); [|discriminate].
  intros H. inversion H; subst. intros E. rewrite E in Hsec. discriminate.
Qed.

(** X1: an enabled tick makes at most one hotplug call and then queues
    itself once, with the delay converted from [asmp_param.delay]: no call
    and the online count unchanged, or one [cpu_up] and the count raised by
    at most one, or one [cpu_down] on a secondary CPU and the count lowered
    by at most one. *)
Theorem asmp_work_fn_one_action (e : env) (s : state) :
  asmp_enabled s = true ->
  let s' := asmp_work_fn e s in
  let requeue := Kqueue_delayed_work
                   (Assigned (msecs_to_jiffies e (delay (asmp_param s)))) in
  (klog s' = klog s ++ [requeue]
   /\ num_online_cpus s' = num_online_cpus s)
  \/ (exists c, klog s' = klog s ++ [Kcpu_up c; requeue]
      /\ num_online_cpus s <= num_online_cpus s' <= num_online_cpus s + 1)
  \/ (exists c, c <> 0%nat /\ klog s' = klog s ++ [Kcpu_down c; requeue]
      /\ num_online_cpus s - 1 <= num_online_cpus s' <= num_online_cpus s).
Proof.
  intros Hen. cbv zeta. rewrite asmp_work_fn_klog, Hen.
  rewrite (asmp_work_fn_enabled e s Hen), num_online_queue_delayed_work.
  destruct (asmp_decision e s) as [|c|c] eqn:Hd;
    cbn [action_calls apply_action app].
  - left. split; reflexivity.
  - right. left. exists c. split; [reflexivity|].
    rewrite num_online_cpu_up. destruct (cpu_up_succeeds e c s); lia.
  - right. right. exists c. split; [|split; [reflexivity|]].
    + now apply (asmp_decision_down_secondary e s).
    + rewrite num_online_cpu_down. destruct (cpu_down_succeeds e c s); lia.
Qed.

Lemma asmp_work_fn_one_action_witness :
  let e := sampled 1000 (fun _ => 100) in
  let s := machine 4 7 (asmp_param_init 4) in
  let s' := asmp_work_fn e s in
  let requeue := Kqueue_delayed_work
                   (Assigned (msecs_to_jiffies e (delay (asmp_param s)))) in
  (klog s' = klog s ++ [requeue]
   /\ num_online_cpus s' = num_online_cpus s)
  \/ (exists c, klog s' = klog s ++ [Kcpu_up c; requeue]
      /\ num_online_cpus s <= num_online_cpus s' <= num_online_cpus s + 1)
  \/ (exists c, c <> 0%nat /\ klog s' = klog s ++ [Kcpu_down c; requeue]
      /\ num_online_cpus s - 1 <= num_online_cpus s' <= num_online_cpus s).
Proof.
  intros e s. apply (asmp_work_fn_one_action e s). reflexivity.
Defined.

(** ** Which CPU a tick picks *)

Lemma hd_filter_seq (f : nat -> bool) (d a len : nat) :
  let r := hd d (filter f (seq a len)) in
  (r = d /\ forall x, (a <= x < a + len)%nat -> f x = false)
  \/ ((a <= r < a + len)%nat /\ f r = true
      /\ forall x, (a <= x < r)%nat -> f x = false).
Proof.
  cbv zeta. revert a. induction len as [|len IH]; intros a; cbn [seq filter].
  - left. split; [reflexivity|]. intros x Hx. lia.
  - destruct (f a) eqn:Hfa; cbn [hd].
    + right. split; [lia|]. split; [exact Hfa|]. intros x Hx. lia.
    + destruct (IH (S a)) as [[Hr Hall]|(Hr & Hf & Hall)].
      * left. split; [exact Hr|]. intros x Hx.
        destruct (Nat.eq_dec x a) as [->|Hne]; [exact Hfa|].
        apply Hall. lia.
      * right. split; [lia|]. split; [exact Hf|]. intros x Hx.
        destruct (Nat.eq_dec x a) as [->|Hne]; [exact Hfa|].
        apply Hall. lia.
Qed.

Lemma cpumask_next_zero_spec (n nbits : nat) (mask : Z) :
  let r := cpumask_next_zero n nbits mask in
  (r = nbits \/ ((n < r < nbits)%nat /\ cpumask_test_cpu r mask = false))
  /\ forall x, (n < x < r)%nat -> (x < nbits)%nat ->
               cpumask_test_cpu x mask = true.
Proof.
  unfold cpumask_next_zero.
  destruct (hd_filter_seq (fun cpu => negb (cpumask_test_cpu cpu mask))
              nbits (S n) (nbits - S n)) as [[Hr Hall]|(Hr & Hf & Hall)];
    cbv zeta in *.
  - split; [now left|]. intros x Hx Hlt. apply negb_false_iff.
    apply Hall. lia.
  - split.
    + right. split; [lia|]. now apply negb_true_iff.
    + intros x Hx Hlt. apply negb_false_iff. apply Hall. lia.
Qed.

Lemma asmp_decision_up_inv (e : env) (s : state) (c : nat) :
  asmp_decision e s = Act_up c ->
  up_rate_of e s < slow_rate_of (asmp_sample e s)
  /\ num_online_cpus s < max_cpus (asmp_param s)
  /\ cycle_up (asmp_param s) <= 1
  /\ c = cpumask_next_zero 0 (nr_cpu_ids s) (cpu_online_mask s).
Proof.
  unfold asmp_decision.
  destruct (Z.ltb_spec (up_rate_of e s) (slow_rate_of (asmp_sample e s))).
  - destruct (Z.ltb_spec (num_online_cpus s) (max_cpus (asmp_param s)));
      [|discriminate].
    destruct (Z.leb_spec (cycle_up (asmp_param s)) 1); [|discriminate].
    cbn [andb]. intros H'. inversion H'. repeat split; assumption.
  - destruct (secondary _ && _); [|discriminate].
    destruct (_ && _); discriminate.
Qed.

Lemma asmp_decision_down_inv (e : env) (s : state) (c : nat) :
  asmp_decision e s = Act_down c ->
  slow_rate_of (asmp_sample e s) <= up_rate_of e s
  /\ fast_rate_of (asmp_sample e s) < down_rate_of e s
  /\ min_cpus (asmp_param s) < num_online_cpus s
  /\ cycle_down (asmp_param s) <= 1
  /\ c = slow_cpu_of (asmp_sample e s)
  /\ secondary c = true.
Proof.
  unfold asmp_decision.
  destruct (Z.ltb_spec (up_rate_of e s) (slow_rate_of (asmp_sample e s))).
  - destruct (_ && _); discriminate.
  - destruct (secondary _) eqn:Hsec; [|discriminate]. cbn [andb].
    destruct (Z.ltb_spec (fast_rate_of (asmp_sample e s)) (down_rate_of e s));
      [|discriminate].
    destruct (Z.ltb_spec (min_cpus (asmp_param s)) (num_online_cpus s));
      [|discriminate].
    destruct (Z.leb_spec (cycle_down (asmp_param s)) 1); [|discriminate].
    cbn [andb]. intros H'. inversion H'; subst. repeat split; assumption.
Qed.

(** The hotplug call a tick starts with, if any, is its decision. *)
Lemma asmp_work_fn_first_call (e : env) (s : state) (k : kcall)
      (calls : list kcall) :
  klog (asmp_work_fn e s) = klog s ++ k :: calls ->
  (k = Kqueue_delayed_work Indeterminate /\ asmp_enabled s = false)
  \/ (asmp_enabled s = true
      /\ action_calls (asmp_decision e s)
         ++ [Kqueue_delayed_work
               (Assigned (msecs_to_jiffies e (delay (asmp_param s))))]
         = k :: calls).
Proof.
  rewrite asmp_work_fn_klog. intros H. apply app_inv_head in H.
  destruct (asmp_enabled s); [now right|left].
  inversion H. now split.
Qed.

(** X2: when a tick calls [cpu_up], it is enabled, every online CPU is
    above the up limit, fewer than [max_cpus] CPUs are online and
    [cycle_up <= 1]; and the CPU it names is the first offline CPU after
    CPU 0: every CPU between them is online, and the CPU named is offline,
    or is [nr_cpu_ids] when no secondary CPU is offline. *)
Theorem asmp_work_fn_cpu_up_target (e : env) (s : state) (c : nat)
        (calls : list kcall) :
  klog (asmp_work_fn e s) = klog s ++ Kcpu_up c :: calls ->
  asmp_enabled s = true
  /\ up_rate_of e s < slow_rate_of (asmp_sample e s)
  /\ num_online_cpus s < max_cpus (asmp_param s)
  /\ cycle_up (asmp_param s) <= 1
  /\ (c = nr_cpu_ids s
      \/ ((0 < c < nr_cpu_ids s)%nat /\ cpu_online c s = false))
  /\ (forall x, (0 < x < c)%nat -> (x < nr_cpu_ids s)%nat ->
                cpu_online x s = true).
Proof.
  intros H. apply asmp_work_fn_first_call in H.
  destruct H as [[H _]|[Hen H]]; [discriminate|].
  destruct (asmp_decision e s) as [|c'|c'] eqn:Hd;
    cbn [action_calls app] in H; inversion H; subst.
  destruct (asmp_decision_up_inv e s c Hd) as (A & B & C & D).
  destruct (cpumask_next_zero_spec 0 (nr_cpu_ids s) (cpu_online_mask s))
    as [Hc Hbelow].
  cbv zeta in Hc, Hbelow. rewrite <- D in Hc, Hbelow.
  repeat split; assumption.
Qed.

Lemma asmp_work_fn_cpu_up_target_witness :
  let e := sampled 1000 (fun _ => 950) in
  let s := machine 4 11 (asmp_param_init 4) in
  klog (asmp_work_fn e s)
  = klog s ++ Kcpu_up 2 :: [Kqueue_delayed_work (Assigned 10)]
  /\ asmp_enabled s = true
  /\ up_rate_of e s < slow_rate_of (asmp_sample e s)
  /\ num_online_cpus s < max_cpus (asmp_param s)
  /\ cycle_up (asmp_param s) <= 1
  /\ (2%nat = nr_cpu_ids s
      \/ ((0 < 2 < nr_cpu_ids s)%nat /\ cpu_online 2 s = false))
  /\ (forall x, (0 < x < 2)%nat -> (x < nr_cpu_ids s)%nat ->
                cpu_online x s = true).
Proof.
  intros e s. split; [reflexivity|].
  apply (asmp_work_fn_cpu_up_target e s 2%nat
           [Kqueue_delayed_work (Assigned 10)]).
  reflexivity.
Defined.

Lemma seq_StronglySorted (a len : nat) : StronglySorted lt (seq a len).
Proof.
  revert a. induction len as [|len IH]; intros a; cbn [seq]; constructor.
  - apply IH.
  - apply Forall_forall. intros x Hx. apply in_seq in Hx. lia.
Qed.

Lemma filter_StronglySorted (f : nat -> bool) (l : list nat) :
  StronglySorted lt l -> StronglySorted lt (filter f l).
Proof.
  induction 1 as [|x l Hl IH Hx]; cbn [filter]; [constructor|].
  destruct (f x); [|exact IH]. constructor; [exact IH|].
  apply Forall_forall. intros y Hy. apply filter_In in Hy.
  rewrite Forall_forall in Hx. apply Hx. apply Hy.
Qed.

Lemma for_each_cpu_StronglySorted (n : nat) (m : Z) :
  StronglySorted lt (for_each_cpu n m).
Proof. apply filter_StronglySorted, seq_StronglySorted. Qed.

(** What the loop leaves in [slow_cpu] after visiting an ascending list:
    either nothing was at or below the starting [slow_rate], or [slow_cpu]
    is the last visited secondary CPU with the lowest rate. *)
Lemma scan_slow_cpu (e : env) (l : list nat) (acc : nat * Z * Z) :
  StronglySorted lt l ->
  let r := fold_left (scan_cpu e) l acc in
  (slow_cpu_of r = slow_cpu_of acc /\ slow_rate_of r = slow_rate_of acc
   /\ forall x, In x (filter secondary l) -> slow_rate_of acc < rate_of e x)
  \/ (In (slow_cpu_of r) (filter secondary l)
      /\ rate_of e (slow_cpu_of r) = slow_rate_of r
      /\ slow_rate_of r <= slow_rate_of acc
      /\ (forall x, In x (filter secondary l) -> slow_rate_of r <= rate_of e x)
      /\ (forall x, In x (filter secondary l) ->
                    rate_of e x = slow_rate_of r -> (x <= slow_cpu_of r)%nat)).
Proof.
  cbv zeta. intros Hsorted. revert acc.
  induction Hsorted as [|c l Hl IH Hc]; intros [[sc sl] fa].
  - left. cbn. repeat split. intros x [].
  - rewrite Forall_forall in Hc.
    cbn [fold_left filter]. rewrite scan_cpu_eq.
    destruct (secondary c) eqn:Hsec; [|apply IH].
    destruct (Z.leb_spec (rate_of e c) sl) as [Hle|Hgt].
    + right.
      destruct (IH (c, rate_of e c, fa))
        as [(A & B & C)|(A & B & C & D & E)]; cbn [slow_cpu_of slow_rate_of fst snd] in *.
      * rewrite A, B. split; [now left|]. split; [reflexivity|].
        split; [exact Hle|]. split.
        -- intros x [->|Hx]; [lia|]. specialize (C x Hx). lia.
        -- intros x [->|Hx] Hr; [lia|]. specialize (C x Hx). lia.
      * split; [now right|]. split; [exact B|]. split; [lia|]. split.
        -- intros x [->|Hx]; [exact C|now apply D].
        -- intros x [->|Hx] Hr; [|now apply E].
           apply filter_In in A. destruct A as [A _].
           specialize (Hc _ A). lia.
    + assert (Hstep :
        exists fa', (if fa <? rate_of e c
                     then (sc, sl, rate_of e c) else (sc, sl, fa))
                    = (sc, sl, fa'))
        by (destruct (fa <? rate_of e c); eauto).
      destruct Hstep as [fa' ->].
      destruct (IH (sc, sl, fa'))
        as [(A & B & C)|(A & B & C & D & E)]; cbn [slow_cpu_of slow_rate_of fst snd] in *.
      * left. split; [exact A|]. split; [exact B|].
        intros x [->|Hx]; [exact Hgt|now apply C].
      * right. split; [now right|]. split; [exact B|]. split; [exact C|].
        split.
        -- intros x [->|Hx]; [lia|now apply D].
        -- intros x [->|Hx] Hr; [lia|now apply E].
Qed.

(** X3: the CPU the sampling loop leaves in [slow_cpu] is 0 exactly when
    no secondary CPU is online; otherwise it is an online secondary CPU
    with the lowest sampled rate among the online secondary CPUs, and the
    highest-numbered of those when several share that rate. *)
Theorem asmp_sample_slow_cpu (e : env) (s : state) :
  let slow_cpu := slow_cpu_of (asmp_sample e s) in
  match filter secondary (for_each_online_cpu s) with
  | [] => slow_cpu = 0%nat
  | c :: cpus =>
      In slow_cpu (c :: cpus)
      /\ (forall x, In x (c :: cpus) -> rate_of e slow_cpu <= rate_of e x)
      /\ (forall x, In x (c :: cpus) ->
                    rate_of e x = rate_of e slow_cpu -> (x <= slow_cpu)%nat)
  end.
Proof.
  cbv zeta. rewrite asmp_sample_eq. cbv zeta.
  cbn [slow_cpu_of fst].
  pose proof (scan_slow_cpu e (for_each_online_cpu s)
                (0%nat, UINT_MAX, rate_of e 0%nat)
                (for_each_cpu_StronglySorted _ _)) as H.
  cbv zeta in H. cbn [slow_cpu_of slow_rate_of fst snd] in H.
  fold (slow_cpu_of (fold_left (scan_cpu e) (for_each_online_cpu s)
                       (0%nat, UINT_MAX, rate_of e 0%nat))) in H |- *.
  destruct (filter secondary (for_each_online_cpu s)) as [|c cpus].
  - destruct H as [(A & _)|(A & _)]; [exact A|destruct A].
  - destruct H as [(_ & _ & C)|(A & B & _ & D & E)].
    + specialize (C c (or_introl eq_refl)).
      pose proof (rate_of_range e c). lia.
    + split; [exact A|]. rewrite B. split; [exact D|exact E].
Qed.

(** X4: when a tick calls [cpu_down], it is enabled, the slowest online
    CPU is not above the up limit, [fast_rate] is below the down limit,
    more than [min_cpus] CPUs are online and [cycle_down <= 1]; and the CPU
    it names is an online secondary CPU than which no online secondary CPU
    is slower. *)
Theorem asmp_work_fn_cpu_down_target (e : env) (s : state) (c : nat)
        (calls : list kcall) :
  klog (asmp_work_fn e s) = klog s ++ Kcpu_down c :: calls ->
  asmp_enabled s = true
  /\ slow_rate_of (asmp_sample e s) <= up_rate_of e s
  /\ fast_rate_of (asmp_sample e s) < down_rate_of e s
  /\ min_cpus (asmp_param s) < num_online_cpus s
  /\ cycle_down (asmp_param s) <= 1
  /\ c <> 0%nat
  /\ (c < nr_cpu_ids s)%nat
  /\ cpu_online c s = true
  /\ (forall x, (x < nr_cpu_ids s)%nat -> x <> 0%nat ->
                cpu_online x s = true -> rate_of e c <= rate_of e x).
Proof.
  intros H. apply asmp_work_fn_first_call in H.
  destruct H as [[H _]|[Hen H]]; [discriminate|].
  destruct (asmp_decision e s) as [|c'|c'] eqn:Hd;
    cbn [action_calls app] in H; inversion H; subst.
  destruct (asmp_decision_down_inv e s c Hd) as (A & B & C & D & E & F).
  pose proof (asmp_sample_eq e s) as Heq.
  pose proof (scan_slow_cpu e (for_each_online_cpu s)
                (0%nat, UINT_MAX, rate_of e 0%nat)
                (for_each_cpu_StronglySorted _ _)) as Hs.
  cbv zeta in Hs, Heq. rewrite Heq in E. cbn [slow_cpu_of fst] in E.
  fold (slow_cpu_of (fold_left (scan_cpu e) (for_each_online_cpu s)
                       (0%nat, UINT_MAX, rate_of e 0%nat))) in E.
  rewrite <- E in Hs. cbn [slow_cpu_of slow_rate_of fst snd] in Hs.
  assert (Hne : c <> 0%nat) by (intros ->; discriminate).
  destruct Hs as [(Hs0 & _)|(Hin & Hr & _ & Hmin & _)]; [congruence|].
  apply filter_In in Hin. destruct Hin as [Hin _].
  apply for_each_cpu_In in Hin. destruct Hin as [Hlt Hon].
  repeat split; try assumption.
  intros x Hx Hx0 Hxon. rewrite Hr. apply Hmin.
  apply filter_In. split.
  - apply for_each_cpu_In. split; assumption.
  - unfold secondary. destruct (Nat.eqb_spec x 0); [contradiction|reflexivity].
Qed.

Lemma asmp_work_fn_cpu_down_target_witness :
  let e := sampled 1000 (fun c => match c with 2%nat => 300 | _ => 500 end) in
  let s := machine 4 15 (asmp_param_init 4) in
  klog (asmp_work_fn e s)
  = klog s ++ Kcpu_down 2 :: [Kqueue_delayed_work (Assigned 10)]
  /\ asmp_enabled s = true
  /\ slow_rate_of (asmp_sample e s) <= up_rate_of e s
  /\ fast_rate_of (asmp_sample e s) < down_rate_of e s
  /\ min_cpus (asmp_param s) < num_online_cpus s
  /\ cycle_down (asmp_param s) <= 1
  /\ 2%nat <> 0%nat
  /\ (2 < nr_cpu_ids s)%nat
  /\ cpu_online 2 s = true
  /\ (forall x, (x < nr_cpu_ids s)%nat -> x <> 0%nat ->
                cpu_online x s = true -> rate_of e 2%nat <= rate_of e x).
Proof.
  intros e s. split; [reflexivity|].
  apply (asmp_work_fn_cpu_down_target e s 2%nat
           [Kqueue_delayed_work (Assigned 10)]).
  reflexivity.
Defined.

(** ** The core-count bounds outside the tick *)

Lemma online_cpu_bounded (e : env) (s : state) (c : nat) :
  bounded s -> bounded (online_cpu e s c).
Proof.
  unfold online_cpu, bounded. intros Hb.
  destruct (negb (cpu_online c s)); cbn [andb]; [|exact Hb].
  destruct (Z.ltb_spec (num_online_cpus s) (max_cpus (asmp_param s)));
    [|exact Hb].
  destruct (cpu_up_config e c s) as [(_ & _ & _ & ->) _].
  rewrite num_online_cpu_up. destruct (cpu_up_succeeds e c s); lia.
Qed.

Lemma suspend_cpu_bounded (e : env) (s : state) (c : nat) :
  bounded s -> bounded (suspend_cpu e s c).
Proof.
  unfold suspend_cpu, bounded. intros Hb.
  destruct (negb (c =? 0)%nat && cpu_online c s); cbn [andb]; [|exact Hb].
  destruct (Z.ltb_spec (min_cpus (asmp_param s)) (num_online_cpus s));
    [|exact Hb].
  destruct (cpu_down_config e c s) as [(_ & _ & _ & ->) _].
  rewrite num_online_cpu_down. destruct (cpu_down_succeeds e c s); lia.
Qed.

Lemma online_loop_bounded (e : env) (l : list nat) (s : state) :
  bounded s -> bounded (fold_left (online_cpu e) l s).
Proof.
  apply (fold_left_related _ _ (fun a b => bounded a -> bounded b)); auto.
  intros a b. apply online_cpu_bounded.
Qed.

Lemma suspend_loop_bounded (e : env) (l : list nat) (s : state) :
  bounded s -> bounded (fold_left (suspend_cpu e) l s).
Proof.
  apply (fold_left_related _ _ (fun a b => bounded a -> bounded b)); auto.
  intros a b. apply suspend_cpu_bounded.
Qed.

(** X5: suspend, resume and a write to [asmp_enabled] keep
    [min_cpus <= online <= max_cpus] when it holds on entry, whatever the
    hotplug calls answer: the suspend loop stops at [min_cpus] and the
    online loop at [max_cpus]. *)
Theorem asmp_signals_keep_bounds (e : env) (val : string) (s : state) :
  bounded s ->
  bounded (asmp_early_suspend e s)
  /\ bounded (asmp_late_resume e s)
  /\ bounded (fst (set_asmp_enabled e val s)).
Proof.
  intros Hb. split; [|split].
  - unfold asmp_early_suspend. destruct (asmp_enabled s); [|exact Hb].
    cbn [negb].
    apply (suspend_loop_bounded e (for_each_present_cpu s)) in Hb.
    exact Hb.
  - unfold asmp_late_resume. destruct (asmp_enabled s); [|exact Hb].
    cbn [negb]. apply bounded_queue_delayed_work.
    now apply online_loop_bounded.
  - unfold set_asmp_enabled.
    assert (Hp : bounded (fst (param_set_bool val s))).
    { unfold param_set_bool. destruct (strtobool val); exact Hb. }
    destruct (param_set_bool val s) as [s1 ret]. cbn [fst] in Hp.
    destruct (asmp_enabled s1); cbn [fst].
    + now apply bounded_queue_delayed_work.
    + now apply online_loop_bounded.
Qed.

Lemma asmp_signals_keep_bounds_witness :
  let e := sampled 1000 (fun _ => 950) in
  let s := machine 4 7 (set_min_cpus 2 (asmp_param_init 4)) in
  bounded (asmp_early_suspend e s)
  /\ bounded (asmp_late_resume e s)
  /\ bounded (fst (set_asmp_enabled e "0" s)).
Proof.
  intros e s. apply (asmp_signals_keep_bounds e "0" s).
  unfold bounded. vm_compute. split; discriminate.
Defined.

(** ** Resume, and suspend followed by resume *)

Lemma online_loop_present_count (e : env) (s : state) :
  (forall c, cpu_up_ok e c = true) -> online_present s ->
  num_online_cpus (fold_left (online_cpu e) (for_each_present_cpu s) s)
  = Z.max (num_online_cpus s)
          (Z.min (max_cpus (asmp_param s)) (num_present_cpus s)).
Proof.
  intros Hok Hsub. rewrite online_loop_count.
  - now rewrite (present_offline_count s Hsub).
  - apply for_each_cpu_NoDup.
  - intros c Hc. apply for_each_cpu_In in Hc. exact Hc.
  - exact Hok.
Qed.

Lemma suspend_loop_present_count (e : env) (s : state) :
  (0 < nr_cpu_ids s)%nat -> cpu_online 0 s = true -> online_present s ->
  (forall c, cpu_down_ok e c = true) ->
  num_online_cpus (fold_left (suspend_cpu e) (for_each_present_cpu s) s)
  = Z.min (num_online_cpus s) (Z.max (min_cpus (asmp_param s)) 1).
Proof.
  intros Hn H0 Hsub Hok.
  pose proof (present_secondary_count s Hn H0 Hsub) as Htot.
  pose proof (secondary_online_in_nonneg (for_each_present_cpu s) s) as Hsec.
  rewrite suspend_loop_count.
  - lia.
  - apply for_each_cpu_NoDup.
  - intros c Hc. apply for_each_cpu_In in Hc. apply Hc.
  - exact Hok.
Qed.

(** The suspend loop only clears bits of the online mask. *)
Lemma suspend_loop_shrinks (e : env) (l : list nat) (s : state) (x : nat) :
  cpu_online x (fold_left (suspend_cpu e) l s) = true -> cpu_online x s = true.
Proof.
  apply (fold_left_related _ _
           (fun a b => cpu_online x b = true -> cpu_online x a = true));
    auto.
  intros a c. unfold suspend_cpu. destruct (_ && _); [|auto].
  rewrite cpu_online_cpu_down. intros H. apply andb_true_iff in H. apply H.
Qed.

(** X6: a resume signal while enabled, with [cpu_up] succeeding, raises
    the online count to min([max_cpus], present) when it was below it and
    leaves it alone otherwise, and leaves the work pending; the timer is
    armed with the configured delay when the work was not pending
    already. *)
Theorem asmp_late_resume_online_count (e : env) (s : state) :
  asmp_enabled s = true ->
  (forall c, cpu_up_ok e c = true) ->
  online_present s ->
  let s' := asmp_late_resume e s in
  num_online_cpus s'
  = Z.max (num_online_cpus s)
          (Z.min (max_cpus (asmp_param s)) (num_present_cpus s))
  /\ asmp_work s'
     = match asmp_work s with
       | Some w => Some w
       | None => Some (Assigned (msecs_to_jiffies e (delay (asmp_param s))))
       end.
Proof.
  intros Hen Hok Hsub. cbv zeta. unfold asmp_late_resume. rewrite Hen.
  cbn [negb].
  destruct (online_loop_frame e (for_each_present_cpu s) s)
    as [(_ & _ & _ & Fa) Fw].
  rewrite num_online_queue_delayed_work, queue_delayed_work_pending, Fw, Fa.
  split; [now apply online_loop_present_count|reflexivity].
Qed.

Lemma machine_online_present (n : nat) (online : Z) (p : asmp_param_struct) :
  online_present (machine n online p).
Proof.
  intros c Hc _. unfold cpu_present, cpumask_test_cpu. cbn in *.
  apply Z.ones_spec_low. lia.
Qed.

Lemma asmp_late_resume_online_count_witness :
  let e := sampled 1000 (fun _ => 950) in
  let s := machine 4 1 (set_max_cpus 3 (asmp_param_init 4)) in
  let s' := asmp_late_resume e s in
  num_online_cpus s'
  = Z.max (num_online_cpus s)
          (Z.min (max_cpus (asmp_param s)) (num_present_cpus s))
  /\ asmp_work s'
     = match asmp_work s with
       | Some w => Some w
       | None => Some (Assigned (msecs_to_jiffies e (delay (asmp_param s))))
       end.
Proof.
  intros e s. apply (asmp_late_resume_online_count e s).
  - reflexivity.
  - intros c. reflexivity.
  - apply machine_online_present.
Defined.

(** X7: a suspend followed by a resume, while enabled, with CPU 0 online
    and hotplug succeeding: CPU 0 is online, the work is pending with the
    configured delay, and the online count is the larger of what suspend
    left, min(count before, max([min_cpus], 1)), and
    min([max_cpus], present). *)
Theorem asmp_suspend_resume_online_count (e : env) (s : state) :
  asmp_enabled s = true ->
  (0 < nr_cpu_ids s)%nat -> cpu_online 0 s = true -> online_present s ->
  (forall c, cpu_down_ok e c = true) ->
  (forall c, cpu_up_ok e c = true) ->
  let s' := asmp_late_resume e (asmp_early_suspend e s) in
  cpu_online 0 s' = true
  /\ asmp_work s'
     = Some (Assigned (msecs_to_jiffies e (delay (asmp_param s))))
  /\ num_online_cpus s'
     = Z.max (Z.min (num_online_cpus s) (Z.max (min_cpus (asmp_param s)) 1))
             (Z.min (max_cpus (asmp_param s)) (num_present_cpus s)).
Proof.
  intros Hen Hn H0 Hsub Hdown Hup. cbv zeta.
  pose proof (asmp_step_spares_cpu0 s (EarlySuspend e)) as [Hcpu0 _].
  pose proof (asmp_step_spares_cpu0 (asmp_early_suspend e s) (LateResume e))
    as [Hcpu0' _].
  cbn [asmp_step] in Hcpu0, Hcpu0'.
  split; [auto|].
  unfold asmp_early_suspend in *. rewrite Hen in *. cbn [negb] in *.
  set (s0 := fold_left (suspend_cpu e) (for_each_present_cpu s) s) in *.
  set (s1 := cancel_delayed_work_sync s0) in *.
  destruct (suspend_loop_frame e (for_each_present_cpu s) s)
    as [(Fn & Fp & Fe & Fa) _].
  fold s0 in Fn, Fp, Fe, Fa.
  assert (Hsub1 : online_present s1).
  { intros c Hc Hon. change (cpu_online c s0 = true) in Hon.
    change (c < nr_cpu_ids s0)%nat in Hc.
    change (cpu_present c s0 = true). unfold cpu_present. rewrite Fp.
    apply Hsub; [now rewrite <- Fn|].
    now apply (suspend_loop_shrinks e (for_each_present_cpu s) s). }
  unfold asmp_late_resume. change (asmp_enabled s1) with (asmp_enabled s0).
  rewrite Fe, Hen. cbn [negb].
  destruct (online_loop_frame e (for_each_present_cpu s1) s1)
    as [(_ & _ & _ & Ga) Gw].
  rewrite num_online_queue_delayed_work, queue_delayed_work_pending, Gw, Ga.
  change (asmp_work s1) with (@None (auto_var Z)).
  change (asmp_param s1) with (asmp_param s0). rewrite Fa.
  split; [reflexivity|].
  rewrite (online_loop_present_count e s1 Hup Hsub1).
  change (num_online_cpus s1) with (num_online_cpus s0).
  change (asmp_param s1) with (asmp_param s0). rewrite Fa.
  assert (Hp : num_present_cpus s1 = num_present_cpus s)
    by (change (num_present_cpus s1) with (num_present_cpus s0);
        unfold num_present_cpus; now rewrite Fn, Fp).
  rewrite Hp. unfold s0.
  now rewrite (suspend_loop_present_count e s Hn H0 Hsub Hdown).
Qed.

Lemma asmp_suspend_resume_online_count_witness :
  let e := sampled 1000 (fun _ => 950) in
  let s := machine 4 3 (set_max_cpus 3 (asmp_param_init 4)) in
  let s' := asmp_late_resume e (asmp_early_suspend e s) in
  cpu_online 0 s' = true
  /\ asmp_work s'
     = Some (Assigned (msecs_to_jiffies e (delay (asmp_param s))))
  /\ num_online_cpus s'
     = Z.max (Z.min (num_online_cpus s) (Z.max (min_cpus (asmp_param s)) 1))
             (Z.min (max_cpus (asmp_param s)) (num_present_cpus s)).
Proof.
  intros e s. apply (asmp_suspend_resume_online_count e s).
  - reflexivity.
  - cbn. lia.
  - reflexivity.
  - apply machine_online_present.
  - intros c. reflexivity.
  - intros c. reflexivity.
Defined.

(** ** The work item between signals *)

Lemma asmp_run_works_not_pending (es : list env) (s : state) :
  asmp_work s = None -> asmp_run (map Work es) s = s.
Proof.
  intros Hw. unfold asmp_run.
  induction es as [|e es IH]; [reflexivity|].
  cbn [map fold_left asmp_step]. unfold process_one_work. rewrite Hw.
  exact IH.
Qed.

(** X8: suspend and disable stop the loop.  After a suspend signal while
    enabled, or after a write that clears [asmp_enabled], the work is not
    pending, so however often the workqueue runs, no tick executes and the
    state stays exactly as the signal left it. *)
Theorem asmp_loop_stopped (e : env) (val : string) (es : list env) (s : state) :
  asmp_enabled s = true ->
  strtobool val = Some false ->
  asmp_run (map Work es) (asmp_early_suspend e s) = asmp_early_suspend e s
  /\ asmp_run (map Work es) (fst (set_asmp_enabled e val s))
     = fst (set_asmp_enabled e val s).
Proof.
  intros Hen Hval. split; apply asmp_run_works_not_pending.
  - unfold asmp_early_suspend. rewrite Hen. reflexivity.
  - unfold set_asmp_enabled, param_set_bool. rewrite Hval.
    cbn [asmp_enabled set_enabled_flag fst].
    set (s1 := cancel_delayed_work_sync (set_enabled_flag false s)).
    destruct (online_loop_frame e (for_each_present_cpu s1) s1) as [_ Fw].
    rewrite Fw. reflexivity.
Qed.

Lemma asmp_loop_stopped_witness :
  let e := sampled 1000 (fun _ => 950) in
  let s := asmp_init e (machine 4 15 (asmp_param_init 4)) in
  asmp_run (map Work [e; e; e]) (asmp_early_suspend e s)
  = asmp_early_suspend e s
  /\ asmp_run (map Work [e; e; e]) (fst (set_asmp_enabled e "0" s))
     = fst (set_asmp_enabled e "0" s).
Proof.
  intros e s. apply (asmp_loop_stopped e "0" [e; e; e] s); reflexivity.
Defined.

(** X9: a value written to [conf/delay] is the delay of the next tick:
    with the controller enabled and the work pending, the tick the
    workqueue runs after the store re-queues the work with the stored value
    converted to jiffies. *)
Theorem store_delay_next_tick (e : env) (buf : string) (count v : Z)
        (w : auto_var Z) (s : state) :
  asmp_enabled s = true ->
  asmp_work s = Some w ->
  sscanf_u buf = Some v ->
  asmp_work (process_one_work e (fst (store_one attr_delay buf count s)))
  = Some (Assigned (msecs_to_jiffies e v)).
Proof.
  intros Hen Hw Hv. unfold store_one. rewrite Hv. cbn [fst assign_one].
  unfold process_one_work. cbn [asmp_work set_param]. rewrite Hw.
  rewrite asmp_work_fn_enabled by exact Hen.
  rewrite queue_delayed_work_pending.
  set (s1 := set_work None (set_param (set_delay v (asmp_param s)) s)).
  assert (Hframe : asmp_work (apply_action e (asmp_decision e s1) s1) = None).
  { destruct (asmp_decision e s1) as [|c|c]; cbn [apply_action].
    - reflexivity.
    - destruct (cpu_up_config e c s1) as [_ ->]. reflexivity.
    - destruct (cpu_down_config e c s1) as [_ ->]. reflexivity. }
  rewrite Hframe. reflexivity.
Qed.

Lemma store_delay_next_tick_witness :
  let e := sampled 1000 (fun _ => 950) in
  let s := asmp_init e (machine 4 15 (asmp_param_init 4)) in
  asmp_work (process_one_work e (fst (store_one attr_delay "250" 4 s)))
  = Some (Assigned (msecs_to_jiffies e 250)).
Proof.
  intros e s.
  apply (store_delay_next_tick e "250" 4 250 (Assigned 2000) s); reflexivity.
Defined.

(** ** Writes to asmp_enabled *)

Lemma set_enabled_flag_same (s : state) :
  set_enabled_flag (asmp_enabled s) s = s.
Proof. destruct s. reflexivity. Qed.

Lemma param_set_bool_again (val : string) (s s1 : state) :
  asmp_enabled s1 = asmp_enabled (fst (param_set_bool val s)) ->
  param_set_bool val s1 = (s1, snd (param_set_bool val s)).
Proof.
  unfold param_set_bool. destruct (strtobool val) as [b|]; cbn [fst snd].
  - cbn [asmp_enabled set_enabled_flag]. intros <-.
    now rewrite set_enabled_flag_same.
  - reflexivity.
Qed.

(** X11: writing the same value to [asmp_enabled] twice in a row leaves
    the masks, the parameters, the flag and the pending state of the work
    as the first write left them and returns the same code, provided the
    platform does not let through on the second write a [cpu_up] it
    refused on the first. *)
Theorem set_asmp_enabled_twice (e e' : env) (val : string) (s : state) :
  (forall c, cpu_up_ok e' c = true -> cpu_up_ok e c = true) ->
  let r1 := set_asmp_enabled e val s in
  let r2 := set_asmp_enabled e' val (fst r1) in
  observable (fst r2) = observable (fst r1) /\ snd r2 = snd r1.
Proof.
  intros Hle. cbv zeta.
  destruct (param_set_bool val s) as [s0 ret] eqn:Hp.
  assert (Hr1 :
    set_asmp_enabled e val s
    = if asmp_enabled s0
      then (queue_delayed_work
              (Assigned (msecs_to_jiffies e (delay (asmp_param s0)))) s0, ret)
      else (fold_left (online_cpu e)
              (for_each_present_cpu (cancel_delayed_work_sync s0))
              (cancel_delayed_work_sync s0), ret))
    by (unfold set_asmp_enabled; rewrite Hp; reflexivity).
  rewrite Hr1. clear Hr1.
  assert (Hagain : forall s1, asmp_enabled s1 = asmp_enabled s0 ->
                              param_set_bool val s1 = (s1, ret)).
  { intros s1 H1. rewrite (param_set_bool_again val s s1); rewrite Hp;
      [reflexivity|exact H1]. }
  destruct (asmp_enabled s0) eqn:Hen; cbn [fst snd].
  - set (d := Assigned (msecs_to_jiffies e (delay (asmp_param s0)))).
    destruct (queue_delayed_work_config d s0) as [(_ & _ & Qe & _) _].
    rewrite Hen in Qe.
    unfold set_asmp_enabled. rewrite (Hagain _ Qe), Qe. cbn [fst snd].
    split; [|reflexivity].
    unfold observable. rewrite hw_queue_delayed_work.
    destruct (queue_delayed_work_config
                (Assigned (msecs_to_jiffies e'
                   (delay (asmp_param (queue_delayed_work d s0)))))
                (queue_delayed_work d s0)) as [(_ & _ & -> & _) _].
    rewrite queue_delayed_work_pending.
    rewrite (queue_delayed_work_pending d s0).
    destruct (asmp_work s0); reflexivity.
  - set (sc := cancel_delayed_work_sync s0).
    set (l := for_each_present_cpu sc).
    set (s1 := fold_left (online_cpu e) l sc).
    destruct (online_loop_frame e l sc) as [(Fn & Fp & Fe & Fa) Fw].
    fold s1 in Fn, Fp, Fe, Fa, Fw.
    assert (He1 : asmp_enabled s1 = false) by (rewrite Fe; exact Hen).
    unfold set_asmp_enabled. rewrite (Hagain _ He1), He1. cbn [fst snd].
    split; [|reflexivity].
    set (sc' := cancel_delayed_work_sync s1).
    assert (Hl : for_each_present_cpu sc' = l).
    { change (for_each_present_cpu sc') with (for_each_present_cpu s1).
      unfold for_each_present_cpu, l. now rewrite Fn, Fp. }
    rewrite Hl.
    destruct (online_loop_frame e' l sc') as [(_ & _ & Ge & _) Gw].
    assert (H2 : hw (fold_left (online_cpu e') l sc') = hw sc').
    { apply online_loop_settled. intros c Hc.
      apply (up_settled_weaker e); [exact Hle|].
      apply (up_settled_hw e s1); [reflexivity|].
      now apply online_loop_settles. }
    unfold observable. rewrite H2, Ge, Gw, Fw. reflexivity.
Qed.

Lemma set_asmp_enabled_twice_witness :
  let e := sampled 1000 (fun _ => 950) in
  let s := asmp_init e (machine 4 3 (asmp_param_init 4)) in
  let r1 := set_asmp_enabled e "0" s in
  let r2 := set_asmp_enabled e "0" (fst r1) in
  observable (fst r2) = observable (fst r1) /\ snd r2 = snd r1.
Proof.
  intros e s. apply (set_asmp_enabled_twice e e "0" s). intros c H. exact H.
Defined.

(** ** What each operation leaves alone *)

Lemma asmp_work_fn_config (e : env) (s : state) :
  same_config s (asmp_work_fn e s).
Proof.
  destruct (asmp_enabled s) eqn:Hen.
  - rewrite (asmp_work_fn_enabled e s Hen).
    eapply same_config_trans; [|apply queue_delayed_work_config].
    destruct (asmp_decision e s) as [|c|c]; cbn [apply_action].
    + apply same_config_refl.
    + apply cpu_up_config.
    + apply cpu_down_config.
  - unfold asmp_work_fn. rewrite Hen. apply queue_delayed_work_config.
Qed.

(** X12: no operation changes the present mask or the number of possible
    CPUs.  The parameters are changed by sysfs stores only, and the enable
    flag by writes to [asmp_enabled] only: ticks, suspend and resume leave
    both alone.  A sysfs store changes nothing but the parameters: not the
    online mask, not the work, and it makes no kernel call. *)
Theorem asmp_step_frame (s : state) (o : asmp_op) :
  nr_cpu_ids (asmp_step s o) = nr_cpu_ids s
  /\ cpu_present_mask (asmp_step s o) = cpu_present_mask s
  /\ match o with
     | Store _ _ _ =>
         asmp_enabled (asmp_step s o) = asmp_enabled s
         /\ cpu_online_mask (asmp_step s o) = cpu_online_mask s
         /\ asmp_work (asmp_step s o) = asmp_work s
         /\ klog (asmp_step s o) = klog s
     | SetEnabled _ _ => asmp_param (asmp_step s o) = asmp_param s
     | _ =>
         asmp_param (asmp_step s o) = asmp_param s
         /\ asmp_enabled (asmp_step s o) = asmp_enabled s
     end.
Proof.
  destruct o as [e|e|e|e val|a buf count]; cbn [asmp_step].
  - assert (H : same_config s (process_one_work e s)).
    { unfold process_one_work. destruct (asmp_work s);
        [|apply same_config_refl].
      apply (same_config_trans _ (set_work None s));
        [repeat split|apply asmp_work_fn_config]. }
    destruct H as (A & B & C & D). auto.
  - assert (H : same_config s (asmp_early_suspend e s)).
    { unfold asmp_early_suspend. destruct (asmp_enabled s);
        [|apply same_config_refl]. cbn [negb].
      destruct (suspend_loop_frame e (for_each_present_cpu s) s) as [H _].
      eapply same_config_trans; [exact H|repeat split]. }
    destruct H as (A & B & C & D). auto.
  - assert (H : same_config s (asmp_late_resume e s)).
    { unfold asmp_late_resume. destruct (asmp_enabled s);
        [|apply same_config_refl]. cbn [negb].
      destruct (online_loop_frame e (for_each_present_cpu s) s) as [H _].
      eapply same_config_trans; [exact H|apply queue_delayed_work_config]. }
    destruct H as (A & B & C & D). auto.
  - unfold set_asmp_enabled.
    assert (Hp : nr_cpu_ids (fst (param_set_bool val s)) = nr_cpu_ids s
                 /\ cpu_present_mask (fst (param_set_bool val s))
                    = cpu_present_mask s
                 /\ asmp_param (fst (param_set_bool val s)) = asmp_param s).
    { unfold param_set_bool. destruct (strtobool val); repeat split. }
    destruct (param_set_bool val s) as [s1 ret]. cbn [fst] in Hp.
    destruct Hp as (P1 & P2 & P3).
    destruct (asmp_enabled s1); cbn [fst].
    + destruct (queue_delayed_work_config
                  (Assigned (msecs_to_jiffies e (delay (asmp_param s1)))) s1)
        as [(A & B & _ & D) _].
      repeat split; congruence.
    + destruct (online_loop_frame e
                  (for_each_present_cpu (cancel_delayed_work_sync s1))
                  (cancel_delayed_work_sync s1)) as [(A & B & _ & D) _].
      cbn [cancel_delayed_work_sync nr_cpu_ids cpu_present_mask asmp_param
           set_work trace] in A, B, D.
      repeat split; congruence.
  - unfold store_one. destruct (sscanf_u buf); repeat split.
Qed.

(** ** The calls of suspend and resume *)

Lemma suspend_loop_calls (e : env) (l : list nat) (s : state) :
  StronglySorted lt l ->
  exists cpus,
    klog (fold_left (suspend_cpu e) l s) = klog s ++ map Kcpu_down cpus
    /\ StronglySorted lt cpus
    /\ forall c, In c cpus -> In c l /\ c <> 0%nat /\ cpu_online c s = true.
Proof.
  intros Hsorted. revert s.
  induction Hsorted as [|x l Hl IH Hx]; intros s.
  - exists []. cbn. rewrite app_nil_r.
    split; [reflexivity|]. split; [constructor|]. intros c [].
  - cbn [fold_left]. rewrite Forall_forall in Hx.
    unfold suspend_cpu at 2.
    destruct (negb (x =? 0)%nat && cpu_online x s) eqn:Hg; cbn [andb].
    2:{ destruct (IH s) as (cpus & Hk & Hs & Hin). exists cpus.
        split; [exact Hk|]. split; [exact Hs|]. intros c Hc.
        destruct (Hin c Hc) as (A & B & C). split; [now right|]. now split. }
    destruct (_ <? _).
    2:{ destruct (IH s) as (cpus & Hk & Hs & Hin). exists cpus.
        split; [exact Hk|]. split; [exact Hs|]. intros c Hc.
        destruct (Hin c Hc) as (A & B & C). split; [now right|]. now split. }
    apply andb_true_iff in Hg. destruct Hg as [Hx0 Hon].
    destruct (IH (cpu_down e x s)) as (cpus & Hk & Hs & Hin).
    exists (x :: cpus). split; [|split].
    + rewrite Hk, cpu_down_klog, <- app_assoc. reflexivity.
    + constructor; [exact Hs|]. apply Forall_forall. intros c Hc.
      apply Hx. now apply Hin.
    + intros c [<-|Hc].
      * split; [now left|]. split; [|exact Hon].
        intros ->. discriminate.
      * destruct (Hin c Hc) as (A & B & C). split; [now right|].
        split; [exact B|]. rewrite cpu_online_cpu_down in C.
        apply andb_true_iff in C. apply C.
Qed.

Lemma online_loop_calls (e : env) (l : list nat) (s : state) :
  StronglySorted lt l ->
  exists cpus,
    klog (fold_left (online_cpu e) l s) = klog s ++ map Kcpu_up cpus
    /\ StronglySorted lt cpus
    /\ forall c, In c cpus -> In c l /\ cpu_online c s = false.
Proof.
  intros Hsorted. revert s.
  induction Hsorted as [|x l Hl IH Hx]; intros s.
  - exists []. cbn. rewrite app_nil_r.
    split; [reflexivity|]. split; [constructor|]. intros c [].
  - cbn [fold_left]. rewrite Forall_forall in Hx.
    unfold online_cpu at 2.
    destruct (cpu_online x s) eqn:Hon; cbn [negb andb].
    { destruct (IH s) as (cpus & Hk & Hs & Hin). exists cpus.
      split; [exact Hk|]. split; [exact Hs|]. intros c Hc.
      destruct (Hin c Hc) as (A & B). split; [now right|exact B]. }
    destruct (_ <? _).
    2:{ destruct (IH s) as (cpus & Hk & Hs & Hin). exists cpus.
        split; [exact Hk|]. split; [exact Hs|]. intros c Hc.
        destruct (Hin c Hc) as (A & B). split; [now right|exact B]. }
    destruct (IH (cpu_up e x s)) as (cpus & Hk & Hs & Hin).
    exists (x :: cpus). split; [|split].
    + rewrite Hk, cpu_up_klog, <- app_assoc. reflexivity.
    + constructor; [exact Hs|]. apply Forall_forall. intros c Hc.
      apply Hx. now apply Hin.
    + intros c [<-|Hc].
      * split; [now left|exact Hon].
      * destruct (Hin c Hc) as (A & B). split; [now right|].
        rewrite cpu_online_cpu_up in B. apply orb_false_iff in B. apply B.
Qed.

(** X13: the kernel calls of the two signals while enabled.  Suspend
    calls [cpu_down] on some secondary present CPUs that were online, in
    ascending order and each at most once, then cancels the work, and calls
    nothing else.  Resume calls [cpu_up] on some present CPUs that were
    offline, in ascending order and each at most once, then queues the work
    with the configured delay, and calls nothing else. *)
Theorem asmp_signal_calls (e : env) (s : state) :
  asmp_enabled s = true ->
  (exists cpus,
     klog (asmp_early_suspend e s)
     = klog s ++ map Kcpu_down cpus ++ [Kcancel_delayed_work_sync]
     /\ StronglySorted lt cpus
     /\ forall c, In c cpus ->
          (c < nr_cpu_ids s)%nat /\ cpu_present c s = true
          /\ c <> 0%nat /\ cpu_online c s = true)
  /\ (exists cpus,
        klog (asmp_late_resume e s)
        = klog s ++ map Kcpu_up cpus
          ++ [Kqueue_delayed_work
                (Assigned (msecs_to_jiffies e (delay (asmp_param s))))]
        /\ StronglySorted lt cpus
        /\ forall c, In c cpus ->
             (c < nr_cpu_ids s)%nat /\ cpu_present c s = true
             /\ cpu_online c s = false).
Proof.
  intros Hen. split.
  - unfold asmp_early_suspend. rewrite Hen. cbn [negb].
    destruct (suspend_loop_calls e (for_each_present_cpu s) s
                (for_each_cpu_StronglySorted _ _)) as (cpus & Hk & Hs & Hin).
    exists cpus. split; [|split; [exact Hs|]].
    + cbn [cancel_delayed_work_sync klog set_work trace].
      rewrite Hk, <- app_assoc. reflexivity.
    + intros c Hc. destruct (Hin c Hc) as (A & B & C).
      apply for_each_cpu_In in A. destruct A as [A1 A2]. auto.
  - unfold asmp_late_resume. rewrite Hen. cbn [negb].
    destruct (online_loop_calls e (for_each_present_cpu s) s
                (for_each_cpu_StronglySorted _ _)) as (cpus & Hk & Hs & Hin).
    destruct (online_loop_frame e (for_each_present_cpu s) s)
      as [(_ & _ & _ & Fa) _].
    exists cpus. split; [|split; [exact Hs|]].
    + rewrite queue_delayed_work_klog, Hk, Fa, <- app_assoc. reflexivity.
    + intros c Hc. destruct (Hin c Hc) as (A & B).
      apply for_each_cpu_In in A. destruct A as [A1 A2]. auto.
Qed.

Lemma asmp_signal_calls_witness :
  let e := sampled 1000 (fun _ => 950) in
  let s := machine 4 5 (asmp_param_init 4) in
  (exists cpus,
     klog (asmp_early_suspend e s)
     = klog s ++ map Kcpu_down cpus ++ [Kcancel_delayed_work_sync]
     /\ StronglySorted lt cpus
     /\ forall c, In c cpus ->
          (c < nr_cpu_ids s)%nat /\ cpu_present c s = true
          /\ c <> 0%nat /\ cpu_online c s = true)
  /\ (exists cpus,
        klog (asmp_late_resume e s)
        = klog s ++ map Kcpu_up cpus
          ++ [Kqueue_delayed_work
                (Assigned (msecs_to_jiffies e (delay (asmp_param s))))]
        /\ StronglySorted lt cpus
        /\ forall c, In c cpus ->
             (c < nr_cpu_ids s)%nat /\ cpu_present c s = true
             /\ cpu_online c s = false).
Proof.
  intros e s. apply (asmp_signal_calls e s). reflexivity.
Defined.

(** ** A rejected write to asmp_enabled *)

(** X10: a write to [asmp_enabled] that does not parse returns [-EINVAL]
    and leaves the flag as it was, but the handler does not stop there: it
    acts on the unchanged flag.  With the flag set it calls
    [queue_delayed_work] once with the configured delay, which arms the
    work unless it is already pending, and touches no CPU.  With the flag
    clear it cancels the work and then calls [cpu_up], in ascending order,
    on present CPUs that were offline, which with [cpu_up] succeeding
    raises the online count to max(count before, min([max_cpus],
    present)). *)
Theorem set_asmp_enabled_rejected (e : env) (val : string) (s : state) :
  strtobool val = None ->
  let s' := fst (set_asmp_enabled e val s) in
  let delay_jif := Assigned (msecs_to_jiffies e (delay (asmp_param s))) in
  snd (set_asmp_enabled e val s) = - EINVAL
  /\ asmp_enabled s' = asmp_enabled s
  /\ if asmp_enabled s then
       klog s' = klog s ++ [Kqueue_delayed_work delay_jif]
       /\ cpu_online_mask s' = cpu_online_mask s
       /\ asmp_work s'
          = match asmp_work s with
            | Some w => Some w
            | None => Some delay_jif
            end
     else
       asmp_work s' = None
       /\ (exists cpus,
             klog s'
             = klog s ++ Kcancel_delayed_work_sync :: map Kcpu_up cpus
             /\ StronglySorted lt cpus
             /\ forall c, In c cpus ->
                  (c < nr_cpu_ids s)%nat /\ cpu_present c s = true
                  /\ cpu_online c s = false)
       /\ ((forall c, cpu_up_ok e c = true) -> online_present s ->
           num_online_cpus s'
           = Z.max (num_online_cpus s)
                   (Z.min (max_cpus (asmp_param s)) (num_present_cpus s))).
Proof.
  intros Hval. cbv zeta. unfold set_asmp_enabled, param_set_bool.
  rewrite Hval. destruct (asmp_enabled s) eqn:Hen; cbn [fst snd].
  - split; [reflexivity|].
    destruct (queue_delayed_work_config
                (Assigned (msecs_to_jiffies e (delay (asmp_param s)))) s)
      as [(_ & _ & Qe & _) Qm].
    split; [now rewrite Qe|].
    split; [apply queue_delayed_work_klog|].
    split; [exact Qm|apply queue_delayed_work_pending].
  - set (sc := cancel_delayed_work_sync s).
    change (for_each_present_cpu sc) with (for_each_present_cpu s).
    destruct (online_loop_frame e (for_each_present_cpu s) sc)
      as [(_ & _ & Fe & _) Fw].
    split; [reflexivity|]. split; [now rewrite Fe|].
    split; [now rewrite Fw|]. split.
    + destruct (online_loop_calls e (for_each_present_cpu s) sc
                  (for_each_cpu_StronglySorted _ _))
        as (cpus & Hk & Hs & Hin).
      exists cpus. split; [|split; [exact Hs|]].
      * rewrite Hk. unfold sc.
        cbn [cancel_delayed_work_sync klog set_work trace].
        now rewrite <- app_assoc.
      * intros c Hc. destruct (Hin c Hc) as (A & B).
        apply for_each_cpu_In in A. destruct A as [A1 A2]. auto.
    + intros Hok Hsub.
      exact (online_loop_present_count e sc Hok Hsub).
Qed.

Lemma set_asmp_enabled_rejected_witness :
  let e := sampled 1000 (fun _ => 950) in
  let s := set_enabled_flag false (machine 4 1 (asmp_param_init 4)) in
  let s' := fst (set_asmp_enabled e "x" s) in
  (snd (set_asmp_enabled e "x" s) = - EINVAL
   /\ asmp_enabled s' = asmp_enabled s
   /\ asmp_work s' = None
   /\ (exists cpus,
         klog s' = klog s ++ Kcancel_delayed_work_sync :: map Kcpu_up cpus
         /\ StronglySorted lt cpus
         /\ forall c, In c cpus ->
              (c < nr_cpu_ids s)%nat /\ cpu_present c s = true
              /\ cpu_online c s = false)
   /\ ((forall c, cpu_up_ok e c = true) -> online_present s ->
       num_online_cpus s'
       = Z.max (num_online_cpus s)
               (Z.min (max_cpus (asmp_param s)) (num_present_cpus s))))
  /\ klog s' = [Kcancel_delayed_work_sync; Kcpu_up 1; Kcpu_up 2; Kcpu_up 3]
  /\ num_online_cpus s' = 4.
Proof.
  intros e s. split.
  - apply (set_asmp_enabled_rejected e "x" s). reflexivity.
  - split; reflexivity.
Defined.

(** ** Reading a parameter and writing it back *)

Lemma digit_char (k : Z) :
  0 <= k < 10 ->
  let c := ascii_of_nat (48 + Z.to_nat k) in
  isdigit c = true /\ isspace c = false
  /\ Z.of_nat (nat_of_ascii c) - 48 = k.
Proof.
  intros Hk.
  assert (H : k = 0 \/ k = 1 \/ k = 2 \/ k = 3 \/ k = 4 \/ k = 5 \/ k = 6
              \/ k = 7 \/ k = 8 \/ k = 9) by lia.
  repeat (destruct H as [->|H]; [repeat split|]). subst. repeat split.
Qed.

Lemma simple_strtoul_digit (k acc : Z) (rest : string) :
  0 <= k < 10 ->
  simple_strtoul (String (ascii_of_nat (48 + Z.to_nat k)) rest) acc
  = simple_strtoul rest (acc * 10 + k).
Proof.
  intros Hk. destruct (digit_char k Hk) as (Hd & _ & Hv).
  cbn [simple_strtoul]. rewrite Hd, Hv. reflexivity.
Qed.

(** Parsing what [put_dec] wrote gives the number back and goes on with
    the tail. *)
Lemma simple_strtoul_put_dec (fuel : nat) (v : Z) (tail : string) :
  (0 < fuel)%nat -> 0 <= v < 10 ^ Z.of_nat fuel ->
  simple_strtoul (put_dec fuel v tail) 0 = simple_strtoul tail v.
Proof.
  revert v tail. induction fuel as [|fuel IH]; intros v tail Hf Hv; [lia|].
  cbn [put_dec].
  assert (Hmod : 0 <= v mod 10 < 10) by (apply Z.mod_pos_bound; lia).
  pose proof (Z.div_mod v 10 ltac:(lia)) as Hdm.
  destruct (Z.eqb_spec (v / 10) 0) as [Hz|Hnz].
  - rewrite simple_strtoul_digit by exact Hmod. f_equal. lia.
  - rewrite Nat2Z.inj_succ, Z.pow_succ_r in Hv by lia.
    assert (Hq : 0 <= v / 10 < 10 ^ Z.of_nat fuel).
    { split; [apply Z.div_pos; lia|].
      apply Z.div_lt_upper_bound; lia. }
    assert (Hfuel : (0 < fuel)%nat).
    { destruct fuel; [|lia]. cbn in Hq. lia. }
    rewrite (IH _ _ Hfuel Hq).
    rewrite simple_strtoul_digit by exact Hmod. f_equal. lia.
Qed.

(** [put_dec] writes at least one digit, and a digit comes first. *)
Lemma put_dec_head (fuel : nat) (v : Z) (tail : string) :
  (0 < fuel)%nat
  \/ (exists c rest, tail = String c rest
                     /\ isdigit c = true /\ isspace c = false) ->
  exists c rest, put_dec fuel v tail = String c rest
                 /\ isdigit c = true /\ isspace c = false.
Proof.
  revert v tail. induction fuel as [|fuel IH]; intros v tail H.
  - destruct H as [H|H]; [lia|exact H].
  - cbn [put_dec].
    assert (Hmod : 0 <= v mod 10 < 10) by (apply Z.mod_pos_bound; lia).
    destruct (digit_char _ Hmod) as (Hd & Hs & _).
    destruct (v / 10 =? 0); [eauto|].
    apply IH. right. eauto.
Qed.

Lemma sscanf_u_sprintf_u_nl (v : Z) :
  0 <= v <= UINT_MAX -> sscanf_u (sprintf_u_nl v) = Some v.
Proof.
  intros Hv. unfold sprintf_u_nl, UINT_MAX in *.
  destruct (put_dec_head 10 v (String "010" EmptyString))
    as (c & rest & Hp & Hd & Hs); [left; lia|].
  pose proof (simple_strtoul_put_dec 10 v (String "010" EmptyString)
                ltac:(lia) ltac:(cbn; lia)) as Hparse.
  rewrite Hp in *. unfold sscanf_u. cbn [skip_spaces]. rewrite Hs, Hd, Hparse.
  cbn [simple_strtoul]. change (isdigit "010") with false. cbv iota.
  unfold u32. rewrite Z.mod_small by lia. reflexivity.
Qed.

Lemma assign_show_one (a : asmp_attr) (p : asmp_param_struct) :
  assign_one a (show_one a p) p = p.
Proof. destruct a, p; reflexivity. Qed.

Lemma set_param_same (s : state) : set_param (asmp_param s) s = s.
Proof. destruct s. reflexivity. Qed.

(** X14: what a [conf/] file shows can be written back.  For a parameter
    that holds an [unsigned int], the text [show_one] prints converts back
    to the parameter's value, and storing that text is accepted (the
    handler returns [count]) and leaves the state as it was. *)
Theorem show_store_round_trip (a : asmp_attr) (count : Z) (s : state) :
  0 <= show_one a (asmp_param s) <= UINT_MAX ->
  store_one a (fst (show_one_buf a (asmp_param s))) count s = (s, count)
  /\ sscanf_u (fst (show_one_buf a (asmp_param s)))
     = Some (show_one a (asmp_param s)).
Proof.
  intros Hv. unfold show_one_buf, store_one. cbn [fst].
  rewrite (sscanf_u_sprintf_u_nl _ Hv).
  now rewrite assign_show_one, set_param_same.
Qed.

Lemma show_store_round_trip_witness :
  let s := machine 4 15 (set_delay 4294967295 (asmp_param_init 4)) in
  (store_one attr_delay (fst (show_one_buf attr_delay (asmp_param s))) 11 s
   = (s, 11)
   /\ sscanf_u (fst (show_one_buf attr_delay (asmp_param s)))
      = Some (show_one attr_delay (asmp_param s)))
  /\ show_one_buf attr_delay (asmp_param s)
     = ("4294967295" ++ String "010" EmptyString, 11)%string.
Proof.
  intros s. split.
  - apply (show_store_round_trip attr_delay 11 s). cbn. unfold UINT_MAX. lia.
  - reflexivity.
Defined.

Lemma sscanf_u_range (buf : string) (v : Z) :
  sscanf_u buf = Some v -> 0 <= v <= UINT_MAX.
Proof.
  unfold sscanf_u. destruct buf as [|c0 rest]; [discriminate|].
  destruct (skip_spaces (String c0 rest)) as [|c r]; [discriminate|].
  destruct (isdigit c); [|discriminate].
  intros H. inversion H. apply u32_range.
Qed.

(** X15: what was stored is what the file shows.  After a store that
    converts its input to [v], the value is an [unsigned int], the
    attribute's file prints a text that converts to [v] again, and storing
    that text back changes nothing further. *)
Theorem store_show_round_trip (a : asmp_attr) (buf : string) (count v : Z)
        (s : state) :
  sscanf_u buf = Some v ->
  let s' := fst (store_one a buf count s) in
  0 <= v <= UINT_MAX
  /\ sscanf_u (fst (show_one_buf a (asmp_param s'))) = Some v
  /\ fst (store_one a (fst (show_one_buf a (asmp_param s'))) count s') = s'.
Proof.
  intros Hv. cbv zeta. pose proof (sscanf_u_range buf v Hv) as Hr.
  assert (Hs' : fst (store_one a buf count s)
                = set_param (assign_one a v (asmp_param s)) s)
    by (unfold store_one; rewrite Hv; reflexivity).
  rewrite Hs'. clear Hs'.
  set (p' := assign_one a v (asmp_param s)).
  change (asmp_param (set_param p' s)) with p'.
  assert (Hshow : show_one a p' = v) by (unfold p'; destruct a; reflexivity).
  unfold show_one_buf. cbn [fst]. rewrite Hshow.
  split; [exact Hr|]. split; [now apply sscanf_u_sprintf_u_nl|].
  unfold store_one. rewrite (sscanf_u_sprintf_u_nl v Hr). cbn [fst].
  change (asmp_param (set_param p' s)) with p'.
  rewrite <- Hshow, assign_show_one. reflexivity.
Qed.

Lemma store_show_round_trip_witness :
  let s := machine 4 15 (asmp_param_init 4) in
  let s' := fst (store_one attr_cpufreq_up "  85 percent" 12 s) in
  0 <= 85 <= UINT_MAX
  /\ sscanf_u (fst (show_one_buf attr_cpufreq_up (asmp_param s'))) = Some 85
  /\ fst (store_one attr_cpufreq_up
            (fst (show_one_buf attr_cpufreq_up (asmp_param s'))) 12 s') = s'.
Proof.
  intros s.
  apply (store_show_round_trip attr_cpufreq_up "  85 percent" 12 85 s).
  reflexivity.
Defined.
